(** * Music-Visualizer: the procedural mesh engine

    A shallow embedding of the two programs of the repository,
    [perline_noise.py] (the plain "terrain" animation) and [test.py] (the
    audio-reactive animation), and the properties of their mesh generation
    and per-tick update.

    Conventions of the embedding.
    - Python [int]s are [Z]; fixed-width NumPy integers are [Z] with the
      wrap-around of the dtype written out.
    - Python and NumPy floating-point numbers are idealised as real numbers
      [R]; a cast to [float32] is the identity.  Nothing below depends on
      rounding.
    - NumPy arrays are lists (one-dimensional) or lists of rows
      (two-dimensional, row-major).
    - NumPy integer conversions follow the value-based casting of NumPy 1.x,
      under which the audio pipeline of [test.py] runs without an
      [OverflowError].
    - Raised exceptions are values of [exn] carried by [result].
    - The OpenSimplex generator is an object attribute; it is a field of the
      [Terrain] record holding its [noise2] method, a pure function. *)

From Stdlib Require Import String.
From Stdlib.Strings Require Import Byte.
From Stdlib Require Import QArith Qround Qreals.
From Stdlib Require Import Reals Lra Lia ZArith List.
Import ListNotations.

Local Open Scope Z_scope.

(** ** Exceptions *)

Inductive exn : Type :=
| StructError            (* struct.error *)
| ValueError             (* numpy reshape with a wrong size *)
| OSError (msg : string) (* raised by the capture stream *).

Inductive result (A : Type) : Type :=
| Ok (a : A)
| Raise (e : exn).

Arguments Ok {A} a.
Arguments Raise {A} e.

Definition bind {A B : Type} (c : result A) (k : A -> result B) : result B :=
  match c with
  | Ok a => k a
  | Raise e => Raise e
  end.

Notation "x <- c ;; k" := (bind c (fun x => k))
  (at level 61, c at next level, right associativity).

(** ** Python and NumPy primitives *)

Module Np.

Definition matrix := list (list R).

(** [range(n)] *)
Definition range (n : Z) : list Z :=
  map Z.of_nat (seq 0 (Z.to_nat n)).

(** [range(start, stop, step)] for a positive step. *)
Definition range3 (start stop step : Z) : list Z :=
  map (fun i => start + Z.of_nat i * step)
      (seq 0 (Z.to_nat ((stop - start + step - 1) / step))).

(** [np.arange(start, stop, step)]: [ceil((stop - start) / step)] points
    [start + i * step]. *)
Definition arange (start stop step : Q) : list R :=
  map (fun i => Q2R (start + inject_Z (Z.of_nat i) * step))
      (seq 0 (Z.to_nat (Qceiling ((stop - start) / step)))).

(** [enumerate(l)] *)
Definition enumerate {A : Type} (l : list A) : list (Z * A) :=
  combine (range (Z.of_nat (length l))) l.

(** [len(l)] *)
Definition len {A : Type} (l : list A) : Z := Z.of_nat (length l).

(** Conversion to the signed 8-bit dtype ['b'], two's complement. *)
Definition to_int8 (z : Z) : Z := (z + 128) mod 256 - 128.
Definition to_int16 (z : Z) : Z := (z + 32768) mod 65536 - 32768.
Definition to_int32 (z : Z) : Z := (z + 2147483648) mod 4294967296 - 2147483648.
Definition to_uint32 (z : Z) : Z := z mod 4294967296.

(** [a[::2]] *)
Fixpoint every_other {A : Type} (l : list A) : list A :=
  match l with
  | [] => []
  | x :: rest =>
      x :: match rest with
           | [] => []
           | _ :: rest' => every_other rest'
           end
  end.

(** [a.reshape((rows, cols))] of a flat array. *)
Definition reshape {A : Type} (a : list A) (rows cols : nat)
  : result (list (list A)) :=
  if Nat.eqb (length a) (rows * cols)
  then Ok (map (fun r => firstn cols (skipn (r * cols) a)) (seq 0 rows))
  else Raise ValueError.

(** [a[n][m]]; every use below is in range. *)
Definition get2 (a : matrix) (n m : Z) : R :=
  nth (Z.to_nat m) (nth (Z.to_nat n) a []) 0%R.

(** Sum of the products of two rows. *)
Fixpoint inner (u v : list R) : R :=
  match u, v with
  | a :: u', b :: v' => (a * b + inner u' v')%R
  | _, _ => 0%R
  end.

(** Column [j] of a matrix. *)
Definition column (b : matrix) (j : nat) : list R :=
  map (fun row => nth j row 0%R) b.

(** [a.T] *)
Definition transpose (a : matrix) : matrix :=
  map (column a) (seq 0 (length (hd [] a))).

(** [np.dot(a, b)] of two-dimensional arrays. *)
Definition dot (a b : matrix) : matrix :=
  map (fun row => map (inner row) (transpose b)) a.

End Np.

(** [struct.unpack(str(n) + 'B', data)]: [n] unsigned bytes, or
    [struct.error] when the buffer is not [n] bytes long. *)
Definition struct_unpack_B (n : Z) (data : list byte) : result (list Z) :=
  if Z.eqb (Np.len data) n
  then Ok (map (fun b => Z.of_N (Byte.to_N b)) data)
  else Raise StructError.

(** ** The face and colour loop

    Both programs build the triangle list and the colour list with the same
    pair of nested loops, appending two faces and two colours per quad:
<<
    for m in range(self.nfaces - 1):
        yoff = m * self.nfaces
        for n in range(self.nfaces - 1):
            faces.append([n + yoff, yoff + n + self.nfaces, yoff + n + self.nfaces + 1])
            faces.append([n + yoff, yoff + n + 1, yoff + n + self.nfaces + 1])
            colors.append(...)
            colors.append(...)
>>
    The two colours appended are the parameters [c1] and [c2]. *)

Module Topology.

Definition acc : Type := list (list Z) * list (list R).

Definition inner_body (nfaces : Z) (c1 c2 : Z -> Z -> list R)
           (m yoff : Z) (st : acc) (n : Z) : acc :=
  let faces := fst st ++ [[n + yoff; yoff + n + nfaces; yoff + n + nfaces + 1]] in
  let faces := faces ++ [[n + yoff; yoff + n + 1; yoff + n + nfaces + 1]] in
  let colors := snd st ++ [c1 n m] in
  let colors := colors ++ [c2 n m] in
  (faces, colors).

Definition outer_body (nfaces : Z) (c1 c2 : Z -> Z -> list R)
           (st : acc) (m : Z) : acc :=
  let yoff := m * nfaces in
  fold_left (inner_body nfaces c1 c2 m yoff) (Np.range (nfaces - 1)) st.

Definition loop (nfaces : Z) (c1 c2 : Z -> Z -> list R) : acc :=
  fold_left (outer_body nfaces c1 c2) (Np.range (nfaces - 1)) ([], []).

(** [[n / self.nfaces, 1 - n / self.nfaces, m / self.nfaces, alpha]] *)
Definition gradient (nfaces : Z) (alpha : R) (n m : Z) : list R :=
  [IZR n / IZR nfaces; 1 - IZR n / IZR nfaces; IZR m / IZR nfaces; alpha]%R.

(** [[0, 0, 0, 0]] *)
Definition black (n m : Z) : list R := [0; 0; 0; 0]%R.

End Topology.

(** The arguments of [GLMeshItem(...)] and [setMeshData(...)]: what the
    render sink currently displays. *)
Record MeshData : Type := mkMeshData {
  vertexes : Np.matrix;
  faces : list (list Z);
  faceColors : Np.matrix
}.

(** ** [perline_noise.py]: the plain terrain animation *)

Module perline_noise.

Import Np.
Local Open Scope R_scope.

Record Terrain : Type := mkTerrain {
  nsteps : Z;
  ypoints : list Z;
  xpoints : list Z;
  xrotate : Z;
  yrotate : Z;
  nfaces : Z;
  offset : R;
  theta : R;
  theta_x : R;
  theta_y : R;
  theta_z : R;
  tmp : R -> R -> R;      (* self.tmp.noise2 *)
  m1 : MeshData           (* the data held by the mesh item self.m1 *)
}.

(** Rotation matrix around the X-axis *)
Definition R_x (theta_x : R) : matrix :=
  [ [1; 0; 0];
    [0; cos theta_x; - sin theta_x];
    [0; sin theta_x; cos theta_x] ].

(** Rotation matrix around the Y-axis *)
Definition R_y (theta_y : R) : matrix :=
  [ [cos theta_y; 0; sin theta_y];
    [0; 1; 0];
    [- sin theta_y; 0; cos theta_y] ].

(** Rotation matrix around the Z-axis *)
Definition R_z (theta_z : R) : matrix :=
  [ [cos theta_z; - sin theta_z; 0];
    [sin theta_z; cos theta_z; 0];
    [0; 0; 1] ].

Definition rotation_matrix_3d (theta_x theta_y theta_z : R) : matrix :=
  let R_total := dot (dot (R_z theta_z) (R_y theta_y)) (R_x theta_x) in
  R_total.

Definition rotate_vertices (vertices : matrix) (theta_x theta_y theta_z : R)
  : matrix :=
  let rotation_matrix := rotation_matrix_3d theta_x theta_y theta_z in
  let rotated_vertices := dot vertices (transpose rotation_matrix) in
  rotated_vertices.

(** The vertex comprehension of [__init__]. *)
Definition init_verts (xpoints ypoints : list Z) (tmp : R -> R -> R) : matrix :=
  flat_map (fun nx =>
    map (fun my =>
           [IZR (snd nx); IZR (snd my);
            1.5 * tmp (IZR (fst nx) / 5) (IZR (fst my) / 5)])
        (enumerate ypoints))
    (enumerate xpoints).

(** [__init__], given the [noise2] method of [OpenSimplex(seed=42)]. *)
Definition init (noise2 : R -> R -> R) : Terrain :=
  let nsteps := 1%Z in
  let ypoints := range3 (-20) 22 nsteps in
  let xpoints := range3 (-20) 22 nsteps in
  let nfaces := len ypoints in
  let theta_x := 0 in
  let theta_y := 0 in
  let theta_z := 0 in
  let verts := init_verts xpoints ypoints noise2 in
  let rotated_verts := rotate_vertices verts theta_x theta_y theta_z in
  let fc := Topology.loop nfaces Topology.black Topology.black in
  {| nsteps := nsteps; ypoints := ypoints; xpoints := xpoints;
     xrotate := 0; yrotate := 0; nfaces := nfaces; offset := 0;
     theta := 0; theta_x := theta_x; theta_y := theta_y; theta_z := theta_z;
     tmp := noise2;
     m1 := mkMeshData rotated_verts (fst fc) (snd fc) |}.

(** The vertex comprehension of [update]. *)
Definition update_verts (self : Terrain) : matrix :=
  flat_map (fun nx =>
    map (fun my =>
           [IZR (snd nx); IZR (snd my);
            2.5 * tmp self (IZR (fst nx) / 5 + offset self)
                           (IZR (fst my) / 5 + offset self)])
        (enumerate (ypoints self)))
    (enumerate (xpoints self)).

(** [update]: one animation tick. *)
Definition update (self : Terrain) : Terrain :=
  let theta_x' := theta_x self - PI / 60 in
  let theta_y' := theta_y self + PI / 40 in
  let theta_z' := theta_z self - PI / 30 in
  let self1 :=
    {| nsteps := nsteps self; ypoints := ypoints self; xpoints := xpoints self;
       xrotate := xrotate self; yrotate := yrotate self; nfaces := nfaces self;
       offset := offset self; theta := theta self;
       theta_x := theta_x'; theta_y := theta_y'; theta_z := theta_z';
       tmp := tmp self; m1 := m1 self |} in
  let verts := update_verts self1 in
  let rotated_verts :=
    rotate_vertices verts (theta_x self1) (theta_y self1) (theta_z self1) in
  let fc := Topology.loop (nfaces self1)
              (Topology.gradient (nfaces self1) 0.7)
              (Topology.gradient (nfaces self1) 0.8) in
  let faces := map (map to_uint32) (fst fc) in
  let colors := snd fc in
  {| nsteps := nsteps self1; ypoints := ypoints self1; xpoints := xpoints self1;
     xrotate := xrotate self1; yrotate := yrotate self1; nfaces := nfaces self1;
     offset := offset self1 - 0.18; theta := theta self1;
     theta_x := theta_x self1; theta_y := theta_y self1; theta_z := theta_z self1;
     tmp := tmp self1;
     m1 := mkMeshData rotated_verts faces colors |}.

End perline_noise.

(** ** [test.py]: the audio-reactive animation *)

Module test.

Import Np.
Local Open Scope R_scope.

Record Terrain : Type := mkTerrain {
  nstep : Q;
  ypoints : list R;
  xpoints : list R;
  nfaces : Z;
  RATE : Z;
  CHUNK : Z;
  noise : R -> R -> R;    (* self.noise.noise2 *)
  offset : R;
  mesh1 : MeshData        (* the data held by the mesh item self.mesh1 *)
}.

(** The amplitude grid of [mesh]: the first [if]/[else].  The bytes are
    converted to [int8] and sliced; adding the Python integer 128, which does
    not fit [int8], promotes the sum to [int16]; the result is converted to
    [int32] before 128 is subtracted. *)
Definition amplitudes (self : Terrain) (wf_data : option (list byte))
  : result matrix :=
  match wf_data with
  | Some wf_data =>
      wf_data <- struct_unpack_B (2 * CHUNK self) wf_data ;;
      let wf_data :=
        map (fun v => to_int16 (v + 128)) (every_other (map to_int8 wf_data)) in
      let wf_data := map (fun v => to_int32 (to_int32 v - 128)) wf_data in
      let wf_data := map (fun v => IZR v * 0.04) wf_data in
      reshape wf_data (length (xpoints self)) (length (ypoints self))
  | None =>
      let wf_data := repeat 1 1024 in
      reshape wf_data (length (xpoints self)) (length (ypoints self))
  end.

(** The vertex comprehension of [mesh]. *)
Definition mesh_verts (self : Terrain) (offset : R) (wf_data : matrix) : matrix :=
  flat_map (fun nx =>
    map (fun my =>
           [snd nx; snd my;
            get2 wf_data (fst nx) (fst my)
            * noise self (IZR (fst nx) / 5.5 + offset)
                         (IZR (fst my) / 5.2 + offset)])
        (enumerate (ypoints self)))
    (enumerate (xpoints self)).

(** [mesh(self, offset=0, height=3.5, wf_data=None)] *)
Definition mesh (self : Terrain) (offset height : R)
           (wf_data : option (list byte))
  : result (matrix * list (list Z) * matrix) :=
  wf_data <- amplitudes self wf_data ;;
  let verts := mesh_verts self offset wf_data in
  let fc := Topology.loop (nfaces self)
              (Topology.gradient (nfaces self) 0.7)
              (Topology.gradient (nfaces self) 0.8) in
  let faces := map (map to_uint32) (fst fc) in
  let colors := snd fc in
  Ok (verts, faces, colors).

Definition set_mesh1 (self : Terrain) (d : MeshData) : Terrain :=
  {| nstep := nstep self; ypoints := ypoints self; xpoints := xpoints self;
     nfaces := nfaces self; RATE := RATE self; CHUNK := CHUNK self;
     noise := noise self; offset := offset self; mesh1 := d |}.

(** The attributes assigned by [__init__] before it calls [mesh], given
    the [noise2] method of the randomly seeded generator.  [self.mesh1] does
    not exist yet; the record carries an empty mesh there. *)
Definition init_self (noise2 : R -> R -> R) : Terrain :=
  let nstep := (13 # 10)%Q in
  let ypoints := arange (-20) (20 + nstep) nstep in
  let xpoints := arange (-20) (20 + nstep) nstep in
  let nfaces := len ypoints in
  {| nstep := nstep; ypoints := ypoints; xpoints := xpoints;
     nfaces := nfaces; RATE := 44100;
     CHUNK := len xpoints * len ypoints;
     noise := noise2; offset := 0; mesh1 := mkMeshData [] [] [] |}.

(** [__init__]: the call [self.mesh()] and the creation of the mesh item. *)
Definition init (noise2 : R -> R -> R) : result Terrain :=
  let self := init_self noise2 in
  vfc <- mesh self 0 3.5 None ;;
  Ok (set_mesh1 self (mkMeshData (fst (fst vfc)) (snd (fst vfc)) (snd vfc))).

(** What the capture stream answers during one tick. *)
Record Stream : Type := mkStream {
  is_active : result bool;
  read : Z -> result (list byte)
}.

(** How a call of [update] ends: the object, the lines printed, and the
    exception that escapes, if any. *)
Record outcome : Type := mkOutcome {
  self_after : Terrain;
  printed : list string;
  raised : option exn
}.

(** The body of the [try] block: the object when the block is left, and
    the exception it is left with. *)
Definition update_try (self : Terrain) (stream : Stream)
  : Terrain * option exn :=
  match is_active stream with
  | Raise e => (self, Some e)
  | Ok false => (self, None)
  | Ok true =>
      match read stream (CHUNK self) with
      | Raise e => (self, Some e)
      | Ok wf_data =>
          match mesh self (offset self) 3.5 (Some wf_data) with
          | Raise e => (self, Some e)
          | Ok vfc =>
              (set_mesh1 self
                 (mkMeshData (fst (fst vfc)) (snd (fst vfc)) (snd vfc)),
               None)
          end
      end
  end.

(** [update]: one animation tick; [except OSError as e] prints and
    returns, any other exception escapes. *)
Definition update (self : Terrain) (stream : Stream) : outcome :=
  match update_try self stream with
  | (self', None) => mkOutcome self' [] None
  | (self', Some (OSError e)) =>
      mkOutcome self' [("Error reading stream: " ++ e)%string] None
  | (self', Some e) => mkOutcome self' [] (Some e)
  end.

End test.

(** ** Specification-side notions *)

Module Spec.

Import Np.

(** The two triangles of the quad in column [n] of row [m]. *)
Definition face1 (nfaces n m : Z) : list Z :=
  [n + m * nfaces; m * nfaces + n + nfaces; m * nfaces + n + nfaces + 1].

Definition face2 (nfaces n m : Z) : list Z :=
  [n + m * nfaces; m * nfaces + n + 1; m * nfaces + n + nfaces + 1].

(** The faces and the colours of one row of quads, and of all rows. *)
Definition quad_row {A : Type} (nfaces : Z) (g1 g2 : Z -> Z -> A) (m : Z)
  : list A :=
  flat_map (fun n => [g1 n m; g2 n m]) (range (nfaces - 1)).

Definition quads {A : Type} (nfaces : Z) (g1 g2 : Z -> Z -> A) : list A :=
  flat_map (quad_row nfaces g1 g2) (range (nfaces - 1)).

(** Position of the first triangle of quad [(n, m)] in the face and
    colour arrays. *)
Definition quad_index (nfaces n m : Z) : nat :=
  Z.to_nat (2 * (m * (nfaces - 1) + n)).

(** Position of node [(n, m)] in the vertex array of a lattice with [M]
    points on the y axis. *)
Definition node_index (M n m : nat) : nat := (n * M + m)%nat.

(** The product of a matrix and a column vector. *)
Definition mat_vec (a : matrix) (v : list R) : list R :=
  map (fun row => inner row v) a.

(** The right-handed rotations of a vector about each axis. *)
Definition rot_x (t : R) (v : list R) : list R :=
  match v with
  | [x; y; z] => [x; cos t * y - sin t * z; sin t * y + cos t * z]%R
  | _ => v
  end.

Definition rot_y (t : R) (v : list R) : list R :=
  match v with
  | [x; y; z] => [cos t * x + sin t * z; y; - sin t * x + cos t * z]%R
  | _ => v
  end.

Definition rot_z (t : R) (v : list R) : list R :=
  match v with
  | [x; y; z] => [cos t * x - sin t * y; sin t * x + cos t * y; z]%R
  | _ => v
  end.

(** What [__init__] of [test.py] establishes and no method changes: the
    lattice is square, [nfaces] is its side and [CHUNK] its node count. *)
Definition constructed (self : test.Terrain) : Prop :=
  test.nfaces self = len (test.ypoints self) /\
  length (test.xpoints self) = length (test.ypoints self) /\
  test.CHUNK self = len (test.xpoints self) * len (test.ypoints self).

(** The signed 8-bit reading of a byte. *)
Definition signed8 (b : byte) : Z := to_int8 (Z.of_N (Byte.to_N b)).

(** The amplitude pipeline without the add-128 / subtract-128 pair: every
    other byte, read as a signed 8-bit sample, times 0.04, reshaped to
    [N] rows of [M]. *)
Definition amplitudes_simplified (N M : nat) (wf_data : list byte)
  : result matrix :=
  reshape (map (fun b => IZR (signed8 b) * 0.04)%R (every_other wf_data)) N M.

(** The plain-mode height of node [(n, m)]: the noise sampled at the scaled
    lattice indices, shifted by the time offset. *)
Definition plain_height (heightScale kx ky : R) (noise : R -> R -> R)
           (timeOffset : R) (n m : nat) : R :=
  (heightScale * noise (INR n / kx + timeOffset) (INR m / ky + timeOffset))%R.

(** The height formula as the specification words it: the noise sampled at
    the scaled world coordinates [x = xs[n]] and [y = ys[m]]. *)
Definition world_height (heightScale kx ky : R) (noise : R -> R -> R)
           (timeOffset : R) (x y : R) : R :=
  (heightScale * noise (x / kx + timeOffset) (y / ky + timeOffset))%R.

End Spec.

(** ** The animation driver in either mode

    The specification speaks of one driver with a plain and an audio mode;
    the repository has one program per mode.  A driver is the [Terrain]
    object of either program, and a tick is a call of its [update]. *)

Module Driver.

Inductive t : Type :=
| Plain (self : perline_noise.Terrain)
| Audio (self : test.Terrain).

(** The rotation angles the object holds: the attributes [theta_x],
    [theta_y] and [theta_z] exist in [perline_noise.py] only. *)
Definition rotation_angles (d : t) : option (R * R * R) :=
  match d with
  | Plain self =>
      Some (perline_noise.theta_x self, perline_noise.theta_y self,
            perline_noise.theta_z self)
  | Audio _ => None
  end.

Definition time_offset (d : t) : R :=
  match d with
  | Plain self => perline_noise.offset self
  | Audio self => test.offset self
  end.

Definition tick (d : t) (stream : test.Stream) : t :=
  match d with
  | Plain self => Plain (perline_noise.update self)
  | Audio self => Audio (test.self_after (test.update self stream))
  end.

End Driver.

(** ** Concrete inputs *)

(** A smooth noise function with values in [[-1/2, 1/2]]. *)
Definition ramp_noise (x y : R) : R := (x / (1 + x * x))%R.

(** A capture of 1024 samples of silence, two bytes each. *)
Definition silence : list byte := repeat x00 2048.

(** An active stream that delivers the capture. *)
Definition capture_ok : test.Stream :=
  test.mkStream (Ok true) (fun _ => Ok silence).

(** An active stream whose read fails. *)
Definition capture_fails : test.Stream :=
  test.mkStream (Ok true) (fun _ => Raise (OSError "Stream closed")).

(** ** The timer loop of [perline_noise.py]

    [animation] connects a timer to [update], runs the event loop in
    [start], and calls [update] once more when the loop returns.  The number
    of times the timer fired before the loop returned is the parameter
    [fired]; it is 0 when [start] does not enter the loop. *)

Module Loop.

(** [k] firings of the timer: [k] calls of [update], one after the other. *)
Definition ticks (k : nat) (self : perline_noise.Terrain) : perline_noise.Terrain :=
  Nat.iter k perline_noise.update self.

(** [animation] *)
Definition animation (fired : nat) (self : perline_noise.Terrain)
  : perline_noise.Terrain :=
  let self := ticks fired self in
  perline_noise.update self.

End Loop.

(** ** Shapes and measures of the published arrays *)

Module Shape.

(** The squared Euclidean length of a vertex. *)
Definition norm2 (v : list R) : R := Np.inner v v.

(** An array of shape [(K, 3)]. *)
Definition three_columns (a : Np.matrix) : Prop :=
  Forall (fun row => length row = 3%nat) a.

(** What [__init__] of [perline_noise.py] establishes: the lattice is square
    and [nfaces] is its side. *)
Definition square (self : perline_noise.Terrain) : Prop :=
  perline_noise.nfaces self = Np.len (perline_noise.ypoints self) /\
  length (perline_noise.xpoints self) = length (perline_noise.ypoints self).

(** Every index of every face is the position of a row of the vertex
    array. *)
Definition in_bounds (faces : list (list Z)) (verts : Np.matrix) : Prop :=
  forall face i, In face faces -> In i face -> 0 <= i < Np.len verts.

(** A colour channel in the unit interval. *)
Definition unit_channel (c : R) : Prop := (0 <= c <= 1)%R.

End Shape.

(** A capture whose even-indexed bytes are silent and whose odd-indexed
    bytes are all 255. *)
Definition silence_high : list byte := concat (repeat [x00; xff] 1024).

(** An active stream that delivers three bytes. *)
Definition capture_short : test.Stream :=
  test.mkStream (Ok true) (fun _ => Ok [x00; x01; x02]).

(** A stream that cannot tell whether it is active. *)
Definition capture_closed : test.Stream :=
  test.mkStream (Raise (OSError "Stream closed")) (fun _ => Ok silence).

(** A stream that is stopped. *)
Definition capture_stopped : test.Stream :=
  test.mkStream (Ok false) (fun _ => Ok silence).

(** * Properties *)

(** ** Lists, ranges and chunked concatenations *)

Lemma range_length (n : Z) : length (Np.range n) = Z.to_nat n.
Proof. unfold Np.range. now rewrite length_map, length_seq. Qed.

Lemma range_In (n x : Z) : In x (Np.range n) <-> 0 <= x < n.
Proof.
  unfold Np.range. rewrite in_map_iff. split.
  - intros (i & <- & Hi). apply in_seq in Hi. lia.
  - intros Hx. exists (Z.to_nat x). split; [lia|]. apply in_seq. lia.
Qed.

Lemma range_nth_error (n : Z) (i : nat) :
  (i < Z.to_nat n)%nat -> nth_error (Np.range n) i = Some (Z.of_nat i).
Proof.
  intros Hi. unfold Np.range.
  rewrite nth_error_map, nth_error_seq.
  destruct (Nat.ltb_spec i (Z.to_nat n)); [reflexivity | lia].
Qed.

Lemma flat_map_const_length {A B : Type} (f : A -> list B) (k : nat) (l : list A) :
  (forall x, length (f x) = k) ->
  length (flat_map f l) = (length l * k)%nat.
Proof.
  intros Hf. induction l as [|a l IH]; simpl; [reflexivity|].
  now rewrite length_app, Hf, IH.
Qed.

(** Element [j] of chunk [i] of a concatenation of chunks of equal size. *)
Lemma flat_map_const_nth_error {A B : Type} (f : A -> list B) (k : nat) :
  (forall x, length (f x) = k) ->
  forall (l : list A) (i j : nat) (a : A),
    nth_error l i = Some a -> (j < k)%nat ->
    nth_error (flat_map f l) (i * k + j) = nth_error (f a) j.
Proof.
  intros Hf l. induction l as [|b l IH]; intros i j a Hi Hj.
  - destruct i; discriminate.
  - destruct i as [|i]; simpl in *.
    + injection Hi as ->. rewrite nth_error_app1; [reflexivity | rewrite Hf; lia].
    + rewrite nth_error_app2 by (rewrite Hf; lia).
      rewrite Hf. replace (k + i * k + j - k)%nat with (i * k + j)%nat by lia.
      now apply IH.
Qed.

(** ** The loop appends the quads in row-major order *)

Lemma inner_loop_spec (nfaces : Z) (c1 c2 : Z -> Z -> list R) (m : Z)
      (l : list Z) (st : Topology.acc) :
  fold_left (Topology.inner_body nfaces c1 c2 m (m * nfaces)) l st =
  (fst st ++ flat_map (fun n => [Spec.face1 nfaces n m; Spec.face2 nfaces n m]) l,
   snd st ++ flat_map (fun n => [c1 n m; c2 n m]) l).
Proof.
  revert st. induction l as [|n l IH]; intros [fs cs]; simpl.
  - now rewrite !app_nil_r.
  - rewrite IH. unfold Topology.inner_body. simpl.
    now rewrite <- !app_assoc.
Qed.

Lemma outer_loop_spec (nfaces : Z) (c1 c2 : Z -> Z -> list R)
      (l : list Z) (st : Topology.acc) :
  fold_left (Topology.outer_body nfaces c1 c2) l st =
  (fst st ++ flat_map (Spec.quad_row nfaces (Spec.face1 nfaces) (Spec.face2 nfaces)) l,
   snd st ++ flat_map (Spec.quad_row nfaces c1 c2) l).
Proof.
  revert st. induction l as [|m l IH]; intros [fs cs]; simpl.
  - now rewrite !app_nil_r.
  - rewrite IH. unfold Topology.outer_body. rewrite inner_loop_spec. simpl.
    now rewrite <- !app_assoc.
Qed.

Lemma loop_faces (nfaces : Z) (c1 c2 : Z -> Z -> list R) :
  fst (Topology.loop nfaces c1 c2) =
  Spec.quads nfaces (Spec.face1 nfaces) (Spec.face2 nfaces).
Proof. unfold Topology.loop. now rewrite outer_loop_spec. Qed.

Lemma loop_colors (nfaces : Z) (c1 c2 : Z -> Z -> list R) :
  snd (Topology.loop nfaces c1 c2) = Spec.quads nfaces c1 c2.
Proof. unfold Topology.loop. now rewrite outer_loop_spec. Qed.

Lemma quad_row_length {A : Type} (nfaces : Z) (g1 g2 : Z -> Z -> A) (m : Z) :
  length (Spec.quad_row nfaces g1 g2 m) = (Z.to_nat (nfaces - 1) * 2)%nat.
Proof.
  unfold Spec.quad_row.
  rewrite (flat_map_const_length _ 2) by reflexivity.
  now rewrite range_length.
Qed.

Lemma quads_length {A : Type} (nfaces : Z) (g1 g2 : Z -> Z -> A) :
  length (Spec.quads nfaces g1 g2)
  = (Z.to_nat (nfaces - 1) * (Z.to_nat (nfaces - 1) * 2))%nat.
Proof.
  unfold Spec.quads.
  rewrite (flat_map_const_length _ (Z.to_nat (nfaces - 1) * 2)).
  - now rewrite range_length.
  - intros m. apply quad_row_length.
Qed.

Lemma quads_In {A : Type} (nfaces : Z) (g1 g2 : Z -> Z -> A) (x : A) :
  In x (Spec.quads nfaces g1 g2) ->
  exists n m, 0 <= n < nfaces - 1 /\ 0 <= m < nfaces - 1 /\
              (x = g1 n m \/ x = g2 n m).
Proof.
  unfold Spec.quads, Spec.quad_row. rewrite in_flat_map.
  intros (m & Hm & Hx). apply in_flat_map in Hx. destruct Hx as (n & Hn & Hx).
  apply range_In in Hm, Hn. exists n, m. simpl in Hx. intuition auto.
Qed.

(** The two entries of quad [(n, m)]. *)
Lemma quads_nth_error {A : Type} (nfaces : Z) (g1 g2 : Z -> Z -> A) (n m : Z) :
  0 <= n < nfaces - 1 -> 0 <= m < nfaces - 1 ->
  nth_error (Spec.quads nfaces g1 g2) (Spec.quad_index nfaces n m)
  = Some (g1 n m) /\
  nth_error (Spec.quads nfaces g1 g2) (S (Spec.quad_index nfaces n m))
  = Some (g2 n m).
Proof.
  intros Hn Hm. unfold Spec.quads, Spec.quad_index.
  assert (Hrow : nth_error (Np.range (nfaces - 1)) (Z.to_nat m) = Some m).
  { rewrite range_nth_error by lia. f_equal. lia. }
  assert (Hcol : nth_error (Np.range (nfaces - 1)) (Z.to_nat n) = Some n).
  { rewrite range_nth_error by lia. f_equal. lia. }
  assert (Hk : forall j, (j < 2)%nat ->
     nth_error (flat_map (Spec.quad_row nfaces g1 g2) (Np.range (nfaces - 1)))
               (Z.to_nat m * (Z.to_nat (nfaces - 1) * 2) + (Z.to_nat n * 2 + j))
     = nth_error [g1 n m; g2 n m] j).
  { intros j Hj.
    rewrite (flat_map_const_nth_error _ (Z.to_nat (nfaces - 1) * 2)
               (quad_row_length nfaces g1 g2) _ _ _ m Hrow) by lia.
    unfold Spec.quad_row.
    now rewrite (flat_map_const_nth_error (fun n0 => [g1 n0 m; g2 n0 m]) 2
                   (fun _ => eq_refl) _ _ _ n Hcol) by lia. }
  split.
  - replace (Z.to_nat (2 * (m * (nfaces - 1) + n)))
      with (Z.to_nat m * (Z.to_nat (nfaces - 1) * 2) + (Z.to_nat n * 2 + 0))%nat
      by nia.
    now rewrite Hk by lia.
  - replace (S (Z.to_nat (2 * (m * (nfaces - 1) + n))))
      with (Z.to_nat m * (Z.to_nat (nfaces - 1) * 2) + (Z.to_nat n * 2 + 1))%nat
      by nia.
    now rewrite Hk by lia.
Qed.

(** ** C1: face count and index bound *)

(** C1. For a square lattice with [nfaces >= 2] points per axis, the face
    array built by the loop (after the cast to [uint32]) has exactly
    [2 * (nfaces - 1) * (nfaces - 1)] rows, and every index in every face is
    a valid vertex index, below [nfaces * nfaces]. *)
Theorem C1_face_count_and_index_bound :
  forall (nfaces : Z) (c1 c2 : Z -> Z -> list R),
    2 <= nfaces ->
    let faces := map (map Np.to_uint32) (fst (Topology.loop nfaces c1 c2)) in
    Np.len faces = 2 * (nfaces - 1) * (nfaces - 1) /\
    (forall face i, In face faces -> In i face -> 0 <= i < nfaces * nfaces).
Proof.
  intros nfaces c1 c2 HN faces. subst faces. rewrite loop_faces. split.
  - unfold Np.len. rewrite length_map, quads_length. nia.
  - intros face i Hface Hi.
    apply in_map_iff in Hface. destruct Hface as (raw & <- & Hraw).
    apply in_map_iff in Hi. destruct Hi as (v & <- & Hv).
    apply quads_In in Hraw. destruct Hraw as (n & m & Hn & Hm & Hraw).
    assert (Hb : 0 <= v < nfaces * nfaces).
    { destruct Hraw as [-> | ->]; simpl in Hv;
        repeat (destruct Hv as [<- | Hv]; [nia|]); contradiction. }
    unfold Np.to_uint32.
    assert (Hmod : 0 <= v mod 4294967296 <= v).
    { split; [apply Z.mod_pos_bound; lia | apply Z.mod_le; lia]. }
    lia.
Qed.

Lemma C1_witness :
  2 <= 42 /\
  Np.len (map (map Np.to_uint32)
            (fst (Topology.loop 42 (Topology.gradient 42 0.7)
                                   (Topology.gradient 42 0.8))))
  = 2 * (42 - 1) * (42 - 1).
Proof.
  split; [lia|].
  apply (C1_face_count_and_index_bound 42 _ _); lia.
Defined.

(** ** The vertex comprehension enumerates the lattice row-major *)

Lemma enumerate_length {A : Type} (l : list A) :
  length (Np.enumerate l) = length l.
Proof.
  unfold Np.enumerate. rewrite length_combine, range_length. lia.
Qed.

Lemma combine_seq_nth_error {A : Type} (l : list A) (s i : nat) (a : A) :
  nth_error l i = Some a ->
  nth_error (combine (map Z.of_nat (seq s (length l))) l) i
  = Some (Z.of_nat (s + i), a).
Proof.
  revert s i. induction l as [|b l IH]; intros s i Hi.
  - destruct i; discriminate.
  - destruct i as [|i]; simpl in *.
    + injection Hi as ->. now rewrite Nat.add_0_r.
    + rewrite (IH (S s) i Hi). do 2 f_equal. lia.
Qed.

Lemma enumerate_nth_error {A : Type} (l : list A) (i : nat) (a : A) :
  nth_error l i = Some a ->
  nth_error (Np.enumerate l) i = Some (Z.of_nat i, a).
Proof.
  intros Hi. unfold Np.enumerate, Np.range. rewrite Nat2Z.id.
  now rewrite (combine_seq_nth_error l 0 i a Hi).
Qed.

Section Grid.

Context {A B C : Type}.
Variable row : Z * A -> Z * B -> C.
Variables (xs : list A) (ys : list B).

Let grid : list C :=
  flat_map (fun nx => map (row nx) (Np.enumerate ys)) (Np.enumerate xs).

Lemma grid_length : length grid = (length xs * length ys)%nat.
Proof.
  unfold grid. rewrite (flat_map_const_length _ (length ys)).
  - now rewrite enumerate_length.
  - intros nx. now rewrite length_map, enumerate_length.
Qed.

Lemma grid_nth_error (n m : nat) (x : A) (y : B) :
  nth_error xs n = Some x -> nth_error ys m = Some y ->
  nth_error grid (Spec.node_index (length ys) n m)
  = Some (row (Z.of_nat n, x) (Z.of_nat m, y)).
Proof.
  intros Hx Hy. unfold grid, Spec.node_index.
  assert (Hm : (m < length ys)%nat).
  { apply nth_error_Some. congruence. }
  rewrite (flat_map_const_nth_error _ (length ys)) with (a := (Z.of_nat n, x)).
  - rewrite nth_error_map, (enumerate_nth_error ys m y Hy). reflexivity.
  - intros nx. now rewrite length_map, enumerate_length.
  - now apply enumerate_nth_error.
  - exact Hm.
Qed.

End Grid.

Lemma IZR_of_nat (n : nat) : IZR (Z.of_nat n) = INR n.
Proof. symmetry. apply INR_IZR_INZ. Qed.

(** ** C2: the sampled heights *)

Lemma perline_update_vertexes (self : perline_noise.Terrain) :
  vertexes (perline_noise.m1 (perline_noise.update self))
  = perline_noise.rotate_vertices (perline_noise.update_verts self)
      (perline_noise.theta_x self - PI / 60)
      (perline_noise.theta_y self + PI / 40)
      (perline_noise.theta_z self - PI / 30).
Proof. reflexivity. Qed.

Lemma perline_update_verts_row (self : perline_noise.Terrain) (n m : nat) (x y : Z) :
  nth_error (perline_noise.xpoints self) n = Some x ->
  nth_error (perline_noise.ypoints self) m = Some y ->
  nth_error (perline_noise.update_verts self)
            (Spec.node_index (length (perline_noise.ypoints self)) n m)
  = Some [IZR x; IZR y;
          Spec.plain_height 2.5 5 5 (perline_noise.tmp self)
                            (perline_noise.offset self) n m].
Proof.
  intros Hx Hy. unfold perline_noise.update_verts.
  rewrite (grid_nth_error _ _ _ n m x y Hx Hy). simpl.
  unfold Spec.plain_height. now rewrite !IZR_of_nat.
Qed.

Lemma test_mesh_verts_row (self : test.Terrain) (off : R) (amp : Np.matrix)
      (n m : nat) (x y : R) :
  nth_error (test.xpoints self) n = Some x ->
  nth_error (test.ypoints self) m = Some y ->
  nth_error (test.mesh_verts self off amp)
            (Spec.node_index (length (test.ypoints self)) n m)
  = Some [x; y;
          (Np.get2 amp (Z.of_nat n) (Z.of_nat m)
           * Spec.plain_height 1 5.5 5.2 (test.noise self) off n m)%R].
Proof.
  intros Hx Hy. unfold test.mesh_verts.
  rewrite (grid_nth_error _ _ _ n m x y Hx Hy). simpl.
  unfold Spec.plain_height. rewrite !IZR_of_nat. do 4 f_equal. lra.
Qed.

(** C2 (as amended). Each plain-mode tick rotates a vertex array whose node
    [(n, m)] is [(xs[n], ys[m], 2.5 * noise(n / 5 + offset, m / 5 + offset))]:
    the noise is sampled at the lattice indices [n] and [m], not at the world
    coordinates.  In audio mode the divisors are 5.5 and 5.2 and the
    amplitude [amp(n, m)] takes the place of the height scale. *)
Theorem C2_heights_sample_lattice_indices :
  (forall (self : perline_noise.Terrain) (n m : nat) (x y : Z),
      nth_error (perline_noise.xpoints self) n = Some x ->
      nth_error (perline_noise.ypoints self) m = Some y ->
      vertexes (perline_noise.m1 (perline_noise.update self))
      = perline_noise.rotate_vertices (perline_noise.update_verts self)
          (perline_noise.theta_x self - PI / 60)
          (perline_noise.theta_y self + PI / 40)
          (perline_noise.theta_z self - PI / 30) /\
      nth_error (perline_noise.update_verts self)
                (Spec.node_index (length (perline_noise.ypoints self)) n m)
      = Some [IZR x; IZR y;
              (2.5 * perline_noise.tmp self
                       (INR n / 5 + perline_noise.offset self)
                       (INR m / 5 + perline_noise.offset self))%R]) /\
  (forall (self : test.Terrain) (off : R) (amp : Np.matrix) (n m : nat) (x y : R),
      nth_error (test.xpoints self) n = Some x ->
      nth_error (test.ypoints self) m = Some y ->
      nth_error (test.mesh_verts self off amp)
                (Spec.node_index (length (test.ypoints self)) n m)
      = Some [x; y;
              (Np.get2 amp (Z.of_nat n) (Z.of_nat m)
               * test.noise self (INR n / 5.5 + off) (INR m / 5.2 + off))%R]).
Proof.
  split.
  - intros self n m x y Hx Hy. split.
    + apply perline_update_vertexes.
    + now rewrite (perline_update_verts_row self n m x y Hx Hy).
  - intros self off amp n m x y Hx Hy.
    rewrite (test_mesh_verts_row self off amp n m x y Hx Hy).
    unfold Spec.plain_height. do 4 f_equal. lra.
Qed.

Lemma C2_witness :
  nth_error (perline_noise.update_verts (perline_noise.init ramp_noise))
            (Spec.node_index 42 1 0)
  = Some [IZR (-19); IZR (-20);
          (2.5 * ramp_noise (INR 1 / 5 + 0) (INR 0 / 5 + 0))%R] /\
  nth_error (test.mesh_verts (test.init_self ramp_noise) 0 [])
            (Spec.node_index 32 1 0)
  = Some [Q2R (-20 + inject_Z 1 * (13 # 10)); Q2R (-20 + inject_Z 0 * (13 # 10));
          (Np.get2 [] 1 0 * ramp_noise (INR 1 / 5.5 + 0) (INR 0 / 5.2 + 0))%R].
Proof.
  split.
  - exact (proj2 (proj1 C2_heights_sample_lattice_indices
                    (perline_noise.init ramp_noise) 1%nat 0%nat (-19) (-20)
                    eq_refl eq_refl)).
  - exact (proj2 C2_heights_sample_lattice_indices
             (test.init_self ramp_noise) 0%R [] 1%nat 0%nat _ _ eq_refl eq_refl).
Defined.

(** The claim as worded, with the noise sampled at the world coordinates
    [xs[n] / 5] and [ys[m] / 5], fails on the first tick of the program for
    every height scale. *)
Lemma C2_counterexample :
  let self := perline_noise.init ramp_noise in
  ~ exists heightScale : R,
      forall (n m : nat) (x y : Z),
        nth_error (perline_noise.xpoints self) n = Some x ->
        nth_error (perline_noise.ypoints self) m = Some y ->
        nth_error (perline_noise.update_verts self)
                  (Spec.node_index (length (perline_noise.ypoints self)) n m)
        = Some [IZR x; IZR y;
                Spec.world_height heightScale 5 5 (perline_noise.tmp self)
                                  (perline_noise.offset self) (IZR x) (IZR y)].
Proof.
  intros self [h Hall].
  pose proof (Hall 0%nat 0%nat (-20) (-20) eq_refl eq_refl) as H0.
  pose proof (Hall 1%nat 0%nat (-19) (-20) eq_refl eq_refl) as H1.
  rewrite (perline_update_verts_row self 0 0 (-20) (-20) eq_refl eq_refl) in H0.
  rewrite (perline_update_verts_row self 1 0 (-19) (-20) eq_refl eq_refl) in H1.
  injection H0 as H0. injection H1 as H1.
  unfold Spec.plain_height, Spec.world_height, ramp_noise in H0, H1.
  cbn [perline_noise.tmp perline_noise.offset perline_noise.init self] in H0, H1.
  unfold ramp_noise in H0, H1. simpl INR in H0, H1.
  assert (Hh : h = 0%R) by (field_simplify in H0; lra).
  subst h. field_simplify in H1; lra.
Qed.

(** ** C7: the colour gradient *)

Lemma perline_update_colors (self : perline_noise.Terrain) :
  faceColors (perline_noise.m1 (perline_noise.update self))
  = Spec.quads (perline_noise.nfaces self)
      (Topology.gradient (perline_noise.nfaces self) 0.7)
      (Topology.gradient (perline_noise.nfaces self) 0.8).
Proof. cbn. apply loop_colors. Qed.

Lemma perline_init_nfaces (noise2 : R -> R -> R) :
  perline_noise.nfaces (perline_noise.init noise2) = 42.
Proof. reflexivity. Qed.

Lemma perline_init_colors (noise2 : R -> R -> R) :
  faceColors (perline_noise.m1 (perline_noise.init noise2))
  = Spec.quads 42 Topology.black Topology.black.
Proof. cbn. apply (loop_colors 42). Qed.

Lemma test_mesh_colors (self : test.Terrain) (off h : R) (wf : option (list byte))
      (v : Np.matrix) (f : list (list Z)) (c : Np.matrix) :
  test.mesh self off h wf = Ok (v, f, c) ->
  c = Spec.quads (test.nfaces self)
        (Topology.gradient (test.nfaces self) 0.7)
        (Topology.gradient (test.nfaces self) 0.8).
Proof.
  unfold test.mesh. destruct (test.amplitudes self wf) as [amp|e]; simpl.
  - intros H. injection H as _ _ <-. apply loop_colors.
  - discriminate.
Qed.

(** C7 (as amended). In the colour array published by every tick of the
    plain program, and in every colour array built by [mesh] of the audio
    program (its constructor and its ticks), the two triangles of quad
    [(n, m)] have the colours [(n/N, 1 - n/N, m/N, 0.7)] and
    [(n/N, 1 - n/N, m/N, 0.8)].  The colour array published by the
    constructor of the plain program is [(0, 0, 0, 0)] throughout. *)
Theorem C7_colors_follow_gradient :
  (forall (self : perline_noise.Terrain) (n m : Z),
      let N := perline_noise.nfaces self in
      let colors := faceColors (perline_noise.m1 (perline_noise.update self)) in
      0 <= n < N - 1 -> 0 <= m < N - 1 ->
      nth_error colors (Spec.quad_index N n m)
      = Some [IZR n / IZR N; 1 - IZR n / IZR N; IZR m / IZR N; 0.7]%R /\
      nth_error colors (S (Spec.quad_index N n m))
      = Some [IZR n / IZR N; 1 - IZR n / IZR N; IZR m / IZR N; 0.8]%R) /\
  (forall (self : test.Terrain) (off h : R) (wf : option (list byte))
          (verts : Np.matrix) (faces : list (list Z)) (colors : Np.matrix)
          (n m : Z),
      let N := test.nfaces self in
      test.mesh self off h wf = Ok (verts, faces, colors) ->
      0 <= n < N - 1 -> 0 <= m < N - 1 ->
      nth_error colors (Spec.quad_index N n m)
      = Some [IZR n / IZR N; 1 - IZR n / IZR N; IZR m / IZR N; 0.7]%R /\
      nth_error colors (S (Spec.quad_index N n m))
      = Some [IZR n / IZR N; 1 - IZR n / IZR N; IZR m / IZR N; 0.8]%R) /\
  (forall (noise2 : R -> R -> R) (n m : Z),
      let colors := faceColors (perline_noise.m1 (perline_noise.init noise2)) in
      0 <= n < 42 - 1 -> 0 <= m < 42 - 1 ->
      nth_error colors (Spec.quad_index 42 n m) = Some [0; 0; 0; 0]%R /\
      nth_error colors (S (Spec.quad_index 42 n m)) = Some [0; 0; 0; 0]%R).
Proof.
  split; [|split].
  - intros self n m N colors Hn Hm. subst colors.
    rewrite perline_update_colors.
    exact (quads_nth_error N _ _ n m Hn Hm).
  - intros self off h wf verts faces colors n m N Hmesh Hn Hm.
    rewrite (test_mesh_colors _ _ _ _ _ _ _ Hmesh).
    exact (quads_nth_error N _ _ n m Hn Hm).
  - intros noise2 n m colors Hn Hm. subst colors.
    rewrite perline_init_colors.
    exact (quads_nth_error 42 _ _ n m Hn Hm).
Qed.

Lemma C7_witness :
  nth_error (faceColors (perline_noise.m1
               (perline_noise.update (perline_noise.init ramp_noise))))
            (Spec.quad_index 42 3 5)
  = Some [IZR 3 / IZR 42; 1 - IZR 3 / IZR 42; IZR 5 / IZR 42; 0.7]%R /\
  exists (verts : Np.matrix) (faces : list (list Z)) (colors : Np.matrix),
    test.mesh (test.init_self ramp_noise) 0 3.5 None = Ok (verts, faces, colors) /\
    nth_error colors (S (Spec.quad_index 32 3 5))
    = Some [IZR 3 / IZR 32; 1 - IZR 3 / IZR 32; IZR 5 / IZR 32; 0.8]%R.
Proof.
  split.
  - refine (proj1 (proj1 C7_colors_follow_gradient
                     (perline_noise.init ramp_noise) 3 5 _ _));
      rewrite perline_init_nfaces; lia.
  - do 3 eexists. split; [reflexivity|].
    refine (proj2 (proj1 (proj2 C7_colors_follow_gradient)
                     (test.init_self ramp_noise) 0%R 3.5%R None _ _ _ 3 5
                     eq_refl _ _));
      change (test.nfaces (test.init_self ramp_noise)) with 32; lia.
Defined.

(** The first frame of the plain program is published with black,
    transparent faces: the first triangle of quad [(0, 0)] is not
    [(0, 1, 0, 0.7)]. *)
Lemma C7_counterexample :
  nth_error (faceColors (perline_noise.m1 (perline_noise.init ramp_noise)))
            (Spec.quad_index 42 0 0)
  <> Some [IZR 0 / IZR 42; 1 - IZR 0 / IZR 42; IZR 0 / IZR 42; 0.7]%R.
Proof.
  rewrite perline_init_colors.
  rewrite (proj1 (quads_nth_error 42 Topology.black Topology.black 0 0
                    ltac:(lia) ltac:(lia))).
  unfold Topology.black. intros H. injection H as _ H _ _. lra.
Qed.

(** ** C3: the rotation *)

Lemma inner_comm (u v : list R) : Np.inner u v = Np.inner v u.
Proof.
  revert v. induction u as [|a u IH]; intros [|b v]; simpl; try reflexivity.
  rewrite IH. ring.
Qed.

Lemma dot_nth_error (a b : Np.matrix) (i : nat) (row : list R) :
  nth_error a i = Some row ->
  nth_error (Np.dot a b) i = Some (map (Np.inner row) (Np.transpose b)).
Proof. intros H. unfold Np.dot. now rewrite nth_error_map, H. Qed.

Lemma rotation_matrix_transpose2 (tx ty tz : R) :
  Np.transpose (Np.transpose (perline_noise.rotation_matrix_3d tx ty tz))
  = perline_noise.rotation_matrix_3d tx ty tz.
Proof. reflexivity. Qed.

(** C3. [rotate_vertices] maps every vertex [v] of the array to [R * v],
    where [R = rotation_matrix_3d] is the product [R_z * R_y * R_x] of the
    right-handed rotations about the axes: [R * v] is [v] rotated about x,
    then about y, then about z. *)
Theorem C3_rotation_is_Rz_Ry_Rx :
  forall (vertices : Np.matrix) (theta_x theta_y theta_z : R)
         (i : nat) (x y z : R),
    nth_error vertices i = Some [x; y; z] ->
    let R_total := perline_noise.rotation_matrix_3d theta_x theta_y theta_z in
    nth_error (perline_noise.rotate_vertices vertices theta_x theta_y theta_z) i
    = Some (Spec.mat_vec R_total [x; y; z]) /\
    perline_noise.rotate_vertices vertices theta_x theta_y theta_z
    = Np.dot vertices (Np.transpose R_total) /\
    R_total = Np.dot (Np.dot (perline_noise.R_z theta_z) (perline_noise.R_y theta_y))
                     (perline_noise.R_x theta_x) /\
    Spec.mat_vec R_total [x; y; z]
    = Spec.rot_z theta_z (Spec.rot_y theta_y (Spec.rot_x theta_x [x; y; z])) /\
    Spec.mat_vec (perline_noise.R_x theta_x) [x; y; z] = Spec.rot_x theta_x [x; y; z] /\
    Spec.mat_vec (perline_noise.R_y theta_y) [x; y; z] = Spec.rot_y theta_y [x; y; z] /\
    Spec.mat_vec (perline_noise.R_z theta_z) [x; y; z] = Spec.rot_z theta_z [x; y; z].
Proof.
  intros vertices tx ty tz i x y z Hi R_total.
  split; [|split; [reflexivity|split; [reflexivity|]]].
  - unfold perline_noise.rotate_vertices.
    rewrite (dot_nth_error _ _ i _ Hi), rotation_matrix_transpose2.
    unfold Spec.mat_vec. f_equal. apply map_ext. intros row. apply inner_comm.
  - subst R_total.
    cbv [perline_noise.rotation_matrix_3d perline_noise.R_x perline_noise.R_y
         perline_noise.R_z Np.dot Np.transpose Np.column Np.inner Spec.mat_vec
         Spec.rot_x Spec.rot_y Spec.rot_z map seq length hd nth].
    repeat split; repeat (f_equal; try ring).
Qed.

Lemma C3_witness :
  nth_error (perline_noise.rotate_vertices [[1; 2; 3]; [4; 5; 6]]%R 0 (PI / 2) 0) 1
  = Some (Spec.mat_vec (perline_noise.rotation_matrix_3d 0 (PI / 2) 0) [4; 5; 6]%R).
Proof.
  exact (proj1 (C3_rotation_is_Rz_Ry_Rx [[1; 2; 3]; [4; 5; 6]]%R 0 (PI / 2) 0
                  1 4 5 6 eq_refl)).
Defined.

(** ** Slicing, reshaping and integer conversions *)

Lemma every_other_nth_error {A : Type} (k : nat) :
  forall l : list A, nth_error (Np.every_other l) k = nth_error l (2 * k).
Proof.
  induction k as [|k IH]; intros [|x [|y rest]]; try reflexivity.
  - simpl. now destruct k.
  - replace (2 * S k)%nat with (S (S (2 * k))) by lia.
    simpl. apply IH.
Qed.

Lemma every_other_length {A : Type} (c : nat) :
  forall l : list A, length l = (2 * c)%nat -> length (Np.every_other l) = c.
Proof.
  induction c as [|c IH]; intros [|x [|y rest]] H; simpl in *; try lia.
  f_equal. apply IH. lia.
Qed.

Lemma every_other_map {A B : Type} (f : A -> B) (l : list A) :
  Np.every_other (map f l) = map f (Np.every_other l).
Proof.
  assert (H : forall n (l : list A), (length l <= n)%nat ->
                Np.every_other (map f l) = map f (Np.every_other l)).
  { intros n. induction n as [|n IH]; intros [|x [|y rest]] Hl;
      simpl in *; try reflexivity; try lia.
    f_equal. apply IH. lia. }
  now apply (H (length l)).
Qed.

Lemma reshape_ok {A : Type} (a : list A) (rows cols : nat) :
  length a = (rows * cols)%nat ->
  Np.reshape a rows cols
  = Ok (map (fun r => firstn cols (skipn (r * cols) a)) (seq 0 rows)).
Proof. intros H. unfold Np.reshape. now rewrite H, Nat.eqb_refl. Qed.

Lemma reshape_error {A : Type} (a : list A) (rows cols : nat) :
  length a <> (rows * cols)%nat -> Np.reshape a rows cols = Raise ValueError.
Proof.
  intros H. unfold Np.reshape.
  now destruct (Nat.eqb_spec (length a) (rows * cols)).
Qed.

(** Entry [(n, m)] of a reshaped array is entry [n * cols + m] of the flat
    array. *)
Lemma reshape_get2 (a : list R) (rows cols : nat) (g : Np.matrix) (n m : nat) :
  Np.reshape a rows cols = Ok g ->
  (n < rows)%nat -> (m < cols)%nat ->
  Np.get2 g (Z.of_nat n) (Z.of_nat m) = nth (n * cols + m) a 0%R.
Proof.
  unfold Np.reshape.
  destruct (Nat.eqb_spec (length a) (rows * cols)) as [Hlen|]; [|discriminate].
  intros H Hn Hm. injection H as <-.
  unfold Np.get2. rewrite !Nat2Z.id.
  assert (Hrow : nth_error (map (fun r => firstn cols (skipn (r * cols) a))
                                (seq 0 rows)) n
                 = Some (firstn cols (skipn (n * cols) a))).
  { rewrite nth_error_map, nth_error_seq.
    destruct (Nat.ltb_spec n rows); [reflexivity | lia]. }
  rewrite (nth_error_nth _ _ _ Hrow).
  assert (Hin : (n * cols + m < length a)%nat) by nia.
  apply nth_error_nth.
  rewrite nth_error_firstn, nth_error_skipn.
  destruct (Nat.ltb_spec m cols); [|lia].
  now apply nth_error_nth'.
Qed.

Lemma to_int8_range (z : Z) : -128 <= Np.to_int8 z <= 127.
Proof.
  unfold Np.to_int8. pose proof (Z.mod_pos_bound (z + 128) 256 ltac:(lia)). lia.
Qed.

(** Adding 128 in [int16] and subtracting it in [int32] gives back the
    signed 8-bit value. *)
Lemma recentre_noop (v : Z) :
  -128 <= v <= 127 ->
  Np.to_int32 (Np.to_int32 (Np.to_int16 (v + 128)) - 128) = v.
Proof.
  intros Hv. unfold Np.to_int16, Np.to_int32.
  rewrite (Z.mod_small (v + 128 + 32768) 65536) by lia.
  rewrite (Z.mod_small (v + 128 + 32768 - 32768 + 2147483648) 4294967296) by lia.
  rewrite Z.mod_small by lia. lia.
Qed.

Lemma struct_unpack_B_ok (n : Z) (data : list byte) :
  Np.len data = n ->
  struct_unpack_B n data = Ok (map (fun b => Z.of_N (Byte.to_N b)) data).
Proof. intros H. unfold struct_unpack_B. now rewrite H, Z.eqb_refl. Qed.

Lemma struct_unpack_B_error (n : Z) (data : list byte) :
  Np.len data <> n -> struct_unpack_B n data = Raise StructError.
Proof.
  intros H. unfold struct_unpack_B. now destruct (Z.eqb_spec (Np.len data) n).
Qed.

(** The flat amplitude array of the audio pipeline. *)
Lemma pipeline_flat (data : list byte) :
  map (fun v => (IZR v * 0.04)%R)
      (map (fun v => Np.to_int32 (Np.to_int32 v - 128))
           (map (fun v => Np.to_int16 (v + 128))
                (Np.every_other
                   (map Np.to_int8 (map (fun b => Z.of_N (Byte.to_N b)) data)))))
  = map (fun b => (IZR (Spec.signed8 b) * 0.04)%R) (Np.every_other data).
Proof.
  rewrite !every_other_map, !map_map. apply map_ext. intros b.
  now rewrite recentre_noop by apply to_int8_range.
Qed.

(** ** The configured audio lattice *)

Lemma test_init_self_xpoints (noise2 : R -> R -> R) :
  length (test.xpoints (test.init_self noise2)) = 32%nat.
Proof. reflexivity. Qed.

Lemma test_init_self_ypoints (noise2 : R -> R -> R) :
  length (test.ypoints (test.init_self noise2)) = 32%nat.
Proof. reflexivity. Qed.

Lemma test_init_self_constructed (noise2 : R -> R -> R) :
  Spec.constructed (test.init_self noise2).
Proof. repeat split. Qed.

Lemma silence_length : Np.len silence = 2 * test.CHUNK (test.init_self ramp_noise).
Proof. reflexivity. Qed.

(** ** C5: a buffer of the wrong length *)

(** C5. When the capture handed to [mesh] does not hold exactly [N * M]
    two-byte samples, [mesh] raises ([struct.error]); no vertex array is
    produced from a truncated, padded or reshaped buffer. *)
Theorem C5_wrong_length_buffer_raises :
  forall (self : test.Terrain) (off h : R) (wf_data : list byte),
    Spec.constructed self ->
    Np.len wf_data
    <> 2 * (Np.len (test.xpoints self) * Np.len (test.ypoints self)) ->
    test.amplitudes self (Some wf_data) = Raise StructError /\
    test.mesh self off h (Some wf_data) = Raise StructError.
Proof.
  intros self off h wf (_ & _ & Hchunk) Hlen.
  assert (Hamp : test.amplitudes self (Some wf) = Raise StructError).
  { unfold test.amplitudes.
    rewrite struct_unpack_B_error; [reflexivity | now rewrite Hchunk]. }
  split; [exact Hamp|]. unfold test.mesh. now rewrite Hamp.
Qed.

Lemma C5_witness :
  test.mesh (test.init_self ramp_noise) 0 3.5 (Some [x00; x01; x02])
  = Raise StructError.
Proof.
  refine (proj2 (C5_wrong_length_buffer_raises (test.init_self ramp_noise)
                   0%R 3.5%R [x00; x01; x02] _ _)).
  - apply test_init_self_constructed.
  - unfold Np.len.
    rewrite test_init_self_xpoints, test_init_self_ypoints. simpl. lia.
Defined.

(** ** C6: a failed read *)

(** C6. When the stream is active and [read] raises [OSError], [update]
    returns normally, leaves the object as it was (the published mesh and
    the offset included) and prints the error. *)
Theorem C6_read_error_skips_tick :
  forall (self : test.Terrain) (stream : test.Stream) (msg : string),
    test.is_active stream = Ok true ->
    test.read stream (test.CHUNK self) = Raise (OSError msg) ->
    let out := test.update self stream in
    test.raised out = None /\
    test.self_after out = self /\
    test.mesh1 (test.self_after out) = test.mesh1 self /\
    test.offset (test.self_after out) = test.offset self /\
    test.printed out = [("Error reading stream: " ++ msg)%string].
Proof.
  intros self stream msg Hactive Hread out. subst out.
  unfold test.update, test.update_try. rewrite Hactive, Hread.
  repeat split.
Qed.

Lemma C6_witness :
  test.self_after (test.update (test.init_self ramp_noise) capture_fails)
  = test.init_self ramp_noise /\
  test.printed (test.update (test.init_self ramp_noise) capture_fails)
  = ["Error reading stream: Stream closed"%string].
Proof.
  pose proof (C6_read_error_skips_tick (test.init_self ramp_noise) capture_fails
                "Stream closed" eq_refl eq_refl) as (_ & Hself & _ & _ & Hprint).
  split; [exact Hself | exact Hprint].
Defined.

(** ** C8: the amplitude pipeline *)

Lemma constructed_buffer_length (self : test.Terrain) (wf_data : list byte) :
  Spec.constructed self ->
  Np.len wf_data = 2 * test.CHUNK self ->
  length wf_data
  = (2 * (length (test.xpoints self) * length (test.ypoints self)))%nat.
Proof. intros (_ & _ & Hchunk) Hlen. unfold Np.len in *. lia. Qed.

(** With a capture of the right length the pipeline returns the reshaped
    signed samples, scaled. *)
Lemma amplitudes_some (self : test.Terrain) (wf_data : list byte) :
  Spec.constructed self ->
  Np.len wf_data = 2 * test.CHUNK self ->
  test.amplitudes self (Some wf_data)
  = Ok (map (fun r =>
               firstn (length (test.ypoints self))
                 (skipn (r * length (test.ypoints self))
                    (map (fun b => (IZR (Spec.signed8 b) * 0.04)%R)
                         (Np.every_other wf_data))))
            (seq 0 (length (test.xpoints self)))).
Proof.
  intros Hc Hlen. unfold test.amplitudes.
  rewrite (struct_unpack_B_ok _ _ Hlen). cbn [bind].
  rewrite pipeline_flat. apply reshape_ok.
  rewrite length_map. apply every_other_length.
  now apply constructed_buffer_length.
Qed.

(** C8. For a capture of [2 * N * M] bytes the amplitude grid computed by
    [mesh] -- unsigned bytes, [int8], every other one, plus 128, minus 128,
    times 0.04, reshaped -- is the grid of the pipeline without the
    add/subtract pair, and its entry [(n, m)] is the signed 8-bit reading of
    byte [2 * (n * M + m)] times 0.04. *)
Theorem C8_recentring_is_a_noop :
  forall (self : test.Terrain) (wf_data : list byte),
    Spec.constructed self ->
    Np.len wf_data
    = 2 * (Np.len (test.xpoints self) * Np.len (test.ypoints self)) ->
    let N := length (test.xpoints self) in
    let M := length (test.ypoints self) in
    test.amplitudes self (Some wf_data)
    = Spec.amplitudes_simplified N M wf_data /\
    exists amp : Np.matrix,
      test.amplitudes self (Some wf_data) = Ok amp /\
      forall n m : nat,
        (n < N)%nat -> (m < M)%nat ->
        exists b : byte,
          nth_error wf_data (2 * (n * M + m)) = Some b /\
          Np.get2 amp (Z.of_nat n) (Z.of_nat m) = (IZR (Spec.signed8 b) * 0.04)%R.
Proof.
  intros self wf Hc Hlen N M.
  assert (Hlen' : Np.len wf = 2 * test.CHUNK self).
  { destruct Hc as (_ & _ & ->). exact Hlen. }
  pose proof (constructed_buffer_length self wf Hc Hlen') as Hnat.
  fold N M in Hnat.
  assert (Hflat : length (map (fun b => (IZR (Spec.signed8 b) * 0.04)%R)
                              (Np.every_other wf)) = (N * M)%nat).
  { rewrite length_map. now apply every_other_length. }
  rewrite (amplitudes_some self wf Hc Hlen'). fold N M. split.
  - unfold Spec.amplitudes_simplified. now rewrite (reshape_ok _ _ _ Hflat).
  - eexists. split; [reflexivity|]. intros n m Hn Hm.
    assert (Hidx : (2 * (n * M + m) < length wf)%nat) by nia.
    destruct (nth_error wf (2 * (n * M + m))) as [b|] eqn:Hb.
    2:{ apply nth_error_None in Hb. lia. }
    exists b. split; [reflexivity|].
    rewrite (reshape_get2 _ N M _ n m (reshape_ok _ _ _ Hflat) Hn Hm).
    apply nth_error_nth.
    now rewrite nth_error_map, every_other_nth_error, Hb.
Qed.

Lemma C8_witness :
  test.amplitudes (test.init_self ramp_noise) (Some silence)
  = Spec.amplitudes_simplified 32 32 silence.
Proof.
  exact (proj1 (C8_recentring_is_a_noop (test.init_self ramp_noise) silence
                  (test_init_self_constructed ramp_noise) eq_refl)).
Defined.

(** ** C9 and C10: the default amplitude buffer *)

Lemma ones_grid_get2 (rows cols : nat) (g : Np.matrix) (n m : nat) :
  Np.reshape (repeat 1%R 1024) rows cols = Ok g ->
  (n < rows)%nat -> (m < cols)%nat ->
  Np.get2 g (Z.of_nat n) (Z.of_nat m) = 1%R.
Proof.
  intros Hg Hn Hm. rewrite (reshape_get2 _ rows cols g n m Hg Hn Hm).
  apply nth_error_nth. apply nth_error_repeat.
  unfold Np.reshape in Hg. rewrite repeat_length in Hg.
  destruct (Nat.eqb_spec 1024 (rows * cols)); [nia | discriminate].
Qed.

(** C9. When [mesh] is called without a capture on a lattice of 1024 nodes
    it returns, and the height of node [(n, m)] in its vertex array is the
    plain-mode height with scale 1: the noise term
    [noise(n / 5.5 + offset, m / 5.2 + offset)] alone.  The same holds for
    the vertex array of any amplitude grid whose entries are all 1. *)
Theorem C9_unit_amplitude_gives_plain_height :
  (forall (self : test.Terrain) (off : R) (amp : Np.matrix) (n m : nat) (x y : R),
      (forall n m : nat,
          (n < length (test.xpoints self))%nat ->
          (m < length (test.ypoints self))%nat ->
          Np.get2 amp (Z.of_nat n) (Z.of_nat m) = 1%R) ->
      nth_error (test.xpoints self) n = Some x ->
      nth_error (test.ypoints self) m = Some y ->
      nth_error (test.mesh_verts self off amp)
                (Spec.node_index (length (test.ypoints self)) n m)
      = Some [x; y; Spec.plain_height 1 5.5 5.2 (test.noise self) off n m] /\
      Spec.plain_height 1 5.5 5.2 (test.noise self) off n m
      = test.noise self (INR n / 5.5 + off)%R (INR m / 5.2 + off)%R) /\
  (forall (self : test.Terrain) (off h : R),
      (length (test.xpoints self) * length (test.ypoints self) = 1024)%nat ->
      exists (verts : Np.matrix) (faces : list (list Z)) (colors : Np.matrix),
        test.mesh self off h None = Ok (verts, faces, colors) /\
        forall (n m : nat) (x y : R),
          nth_error (test.xpoints self) n = Some x ->
          nth_error (test.ypoints self) m = Some y ->
          nth_error verts (Spec.node_index (length (test.ypoints self)) n m)
          = Some [x; y;
                  test.noise self (INR n / 5.5 + off)%R (INR m / 5.2 + off)%R]).
Proof.
  assert (Hrow : forall (self : test.Terrain) (off : R) (amp : Np.matrix)
                        (n m : nat) (x y : R),
             Np.get2 amp (Z.of_nat n) (Z.of_nat m) = 1%R ->
             nth_error (test.xpoints self) n = Some x ->
             nth_error (test.ypoints self) m = Some y ->
             nth_error (test.mesh_verts self off amp)
                       (Spec.node_index (length (test.ypoints self)) n m)
             = Some [x; y;
                     test.noise self (INR n / 5.5 + off)%R (INR m / 5.2 + off)%R]).
  { intros self off amp n m x y Hone Hx Hy.
    rewrite (test_mesh_verts_row self off amp n m x y Hx Hy), Hone.
    unfold Spec.plain_height. do 4 f_equal. ring. }
  split.
  - intros self off amp n m x y Hones Hx Hy.
    assert (Hn : (n < length (test.xpoints self))%nat)
      by (apply nth_error_Some; congruence).
    assert (Hm : (m < length (test.ypoints self))%nat)
      by (apply nth_error_Some; congruence).
    split.
    + rewrite (Hrow self off amp n m x y (Hones n m Hn Hm) Hx Hy).
      unfold Spec.plain_height. do 4 f_equal. ring.
    + unfold Spec.plain_height. ring.
  - intros self off h Hnodes.
    unfold test.mesh, test.amplitudes.
    rewrite reshape_ok by (now rewrite repeat_length).
    cbn [bind]. do 3 eexists. split; [reflexivity|].
    intros n m x y Hx Hy. apply Hrow; [|exact Hx|exact Hy].
    apply (ones_grid_get2 (length (test.xpoints self)) (length (test.ypoints self))).
    + apply reshape_ok. now rewrite repeat_length.
    + apply nth_error_Some. congruence.
    + apply nth_error_Some. congruence.
Qed.

Lemma C9_witness :
  exists (verts : Np.matrix) (faces : list (list Z)) (colors : Np.matrix),
    test.mesh (test.init_self ramp_noise) 0 3.5 None = Ok (verts, faces, colors) /\
    nth_error verts (Spec.node_index 32 0 0)
    = Some [Q2R (-20 + inject_Z 0 * (13 # 10)); Q2R (-20 + inject_Z 0 * (13 # 10));
            ramp_noise (INR 0 / 5.5 + 0) (INR 0 / 5.2 + 0)]%R.
Proof.
  destruct (proj2 C9_unit_amplitude_gives_plain_height
              (test.init_self ramp_noise) 0%R 3.5%R eq_refl)
    as (verts & faces & colors & Hmesh & Hrows).
  exists verts, faces, colors. split; [exact Hmesh|].
  exact (Hrows 0%nat 0%nat _ _ eq_refl eq_refl).
Defined.

(** C10. Without a capture, [mesh] reshapes a buffer of exactly 1024 ones to
    the lattice.  On a lattice whose node count is not 1024 the call raises
    ([ValueError] from the reshape); on a lattice of 1024 nodes it returns.
    The configured lattice, from -20 to 20 + 1.3 in steps of 1.3, has 32
    points per axis, so the constructor's call succeeds. *)
Theorem C10_default_buffer_needs_1024_nodes :
  (forall (self : test.Terrain) (off h : R),
      test.amplitudes self None
      = Np.reshape (repeat 1%R 1024)
                   (length (test.xpoints self)) (length (test.ypoints self)) /\
      ((length (test.xpoints self) * length (test.ypoints self) <> 1024)%nat ->
       test.mesh self off h None = Raise ValueError) /\
      ((length (test.xpoints self) * length (test.ypoints self) = 1024)%nat ->
       exists vfc, test.mesh self off h None = Ok vfc)) /\
  (forall noise2 : R -> R -> R,
      length (test.xpoints (test.init_self noise2)) = 32%nat /\
      length (test.ypoints (test.init_self noise2)) = 32%nat /\
      exists self, test.init noise2 = Ok self).
Proof.
  split.
  - intros self off h. split; [reflexivity|]. split.
    + intros Hne. unfold test.mesh, test.amplitudes.
      rewrite reshape_error; [reflexivity|].
      rewrite repeat_length. congruence.
    + intros Heq. unfold test.mesh, test.amplitudes.
      rewrite reshape_ok by (now rewrite repeat_length).
      cbn [bind]. eexists. reflexivity.
  - intros noise2. split; [reflexivity|]. split; [reflexivity|].
    unfold test.init, test.mesh, test.amplitudes.
    rewrite reshape_ok by reflexivity.
    cbn [bind]. eexists. reflexivity.
Qed.

Lemma C10_witness :
  test.mesh (test.mkTerrain (13 # 10) [0; 1; 2]%R [0; 1; 2]%R 3 44100 9
                            ramp_noise 0 (mkMeshData [] [] []))
            0 3.5 None
  = Raise ValueError /\
  exists vfc, test.mesh (test.init_self ramp_noise) 0 3.5 None = Ok vfc.
Proof.
  split.
  - refine (proj1 (proj2 (proj1 C10_default_buffer_needs_1024_nodes _ _ _)) _).
    simpl. lia.
  - exact (proj2 (proj2 (proj1 C10_default_buffer_needs_1024_nodes
                           (test.init_self ramp_noise) 0%R 3.5%R)) eq_refl).
Defined.

(** ** C4: what a tick advances *)

Lemma test_update_offset (self : test.Terrain) (stream : test.Stream) :
  test.offset (test.self_after (test.update self stream)) = test.offset self.
Proof.
  unfold test.update, test.update_try.
  destruct (test.is_active stream) as [[|]|[| |msg]]; try reflexivity.
  destruct (test.read stream (test.CHUNK self)) as [wf|[| |msg]]; try reflexivity.
  destruct (test.mesh self (test.offset self) 3.5 (Some wf)) as [vfc|[| |msg]];
    reflexivity.
Qed.

(** C4 (as amended). Every tick of the plain program advances [theta_x] by
    [- pi / 60], [theta_y] by [+ pi / 40], [theta_z] by [- pi / 30] and the
    offset by [- 0.18].  The audio program holds no rotation angles; every
    tick of it leaves the offset as it was, and when the stream is active
    and delivers a capture from which [mesh] computes the amplitudes, the
    tick publishes the vertex array sampled with those amplitudes, not
    rotated. *)
Theorem C4_tick_advances_state :
  (forall self : perline_noise.Terrain,
      let self' := perline_noise.update self in
      perline_noise.theta_x self' = (perline_noise.theta_x self - PI / 60)%R /\
      perline_noise.theta_y self' = (perline_noise.theta_y self + PI / 40)%R /\
      perline_noise.theta_z self' = (perline_noise.theta_z self - PI / 30)%R /\
      perline_noise.offset self' = (perline_noise.offset self - 0.18)%R) /\
  (forall (self : test.Terrain) (stream : test.Stream),
      let out := test.update self stream in
      Driver.rotation_angles (Driver.tick (Driver.Audio self) stream) = None /\
      test.offset (test.self_after out) = test.offset self /\
      forall (wf_data : list byte) (amp : Np.matrix),
        test.is_active stream = Ok true ->
        test.read stream (test.CHUNK self) = Ok wf_data ->
        test.amplitudes self (Some wf_data) = Ok amp ->
        test.raised out = None /\
        vertexes (test.mesh1 (test.self_after out))
        = test.mesh_verts self (test.offset self) amp).
Proof.
  split.
  - intros self self'. repeat split.
  - intros self stream out. split; [reflexivity|]. split.
    + apply test_update_offset.
    + intros wf amp Hactive Hread Hamp. subst out.
      unfold test.update, test.update_try, test.mesh.
      rewrite Hactive, Hread, Hamp. cbn. split; reflexivity.
Qed.

Lemma C4_witness :
  test.offset (test.self_after (test.update (test.init_self ramp_noise) capture_ok))
  = 0%R /\
  exists amp : Np.matrix,
    vertexes (test.mesh1 (test.self_after
                            (test.update (test.init_self ramp_noise) capture_ok)))
    = test.mesh_verts (test.init_self ramp_noise) 0 amp.
Proof.
  destruct (proj2 C4_tick_advances_state (test.init_self ramp_noise) capture_ok)
    as (_ & Hoff & Hpub).
  split; [exact Hoff|].
  eexists.
  exact (proj2 (Hpub silence _ eq_refl eq_refl
                  (amplitudes_some (test.init_self ramp_noise) silence
                     (test_init_self_constructed ramp_noise) silence_length))).
Defined.

(** The claim as worded asks every tick, of either mode, to advance three
    rotation angles; a tick of the audio program has none to advance. *)
Lemma C4_counterexample :
  ~ (forall (d : Driver.t) (stream : test.Stream),
        exists theta_x theta_y theta_z : R,
          Driver.rotation_angles d = Some (theta_x, theta_y, theta_z) /\
          Driver.rotation_angles (Driver.tick d stream)
          = Some (theta_x - PI / 60, theta_y + PI / 40, theta_z - PI / 30)%R).
Proof.
  intros Hall.
  destruct (Hall (Driver.Audio (test.init_self ramp_noise)) capture_ok)
    as (tx & ty & tz & Hbefore & _).
  discriminate Hbefore.
Qed.

(** ** The published meshes are consistent

    The face arrays of both programs are the array of C1, and the vertex
    arrays they index have one row per lattice node. *)

Lemma dot_length (a b : Np.matrix) : length (Np.dot a b) = length a.
Proof. unfold Np.dot. apply length_map. Qed.

Lemma perline_update_mesh_consistent (self : perline_noise.Terrain) :
  let d := perline_noise.m1 (perline_noise.update self) in
  faces d
  = map (map Np.to_uint32)
        (fst (Topology.loop (perline_noise.nfaces self)
                (Topology.gradient (perline_noise.nfaces self) 0.7)
                (Topology.gradient (perline_noise.nfaces self) 0.8))) /\
  length (vertexes d)
  = (length (perline_noise.xpoints self) * length (perline_noise.ypoints self))%nat.
Proof.
  split; [reflexivity|].
  rewrite perline_update_vertexes. unfold perline_noise.rotate_vertices.
  rewrite dot_length. unfold perline_noise.update_verts. apply grid_length.
Qed.

Lemma test_mesh_consistent (self : test.Terrain) (off h : R)
      (wf : option (list byte))
      (verts : Np.matrix) (faces : list (list Z)) (colors : Np.matrix) :
  test.mesh self off h wf = Ok (verts, faces, colors) ->
  faces
  = map (map Np.to_uint32)
        (fst (Topology.loop (test.nfaces self)
                (Topology.gradient (test.nfaces self) 0.7)
                (Topology.gradient (test.nfaces self) 0.8))) /\
  length verts = (length (test.xpoints self) * length (test.ypoints self))%nat.
Proof.
  unfold test.mesh. destruct (test.amplitudes self wf) as [amp|e]; simpl.
  - intros H. injection H as <- <- _. split; [reflexivity|].
    unfold test.mesh_verts. apply grid_length.
  - discriminate.
Qed.

(** * Further properties of the programs *)

(** ** The rotation *)

Lemma rotate_vertices_map (vertices : Np.matrix) (tx ty tz : R) :
  perline_noise.rotate_vertices vertices tx ty tz
  = map (Spec.mat_vec (perline_noise.rotation_matrix_3d tx ty tz)) vertices.
Proof.
  unfold perline_noise.rotate_vertices, Np.dot.
  rewrite rotation_matrix_transpose2. apply map_ext. intros row.
  unfold Spec.mat_vec. apply map_ext. intros r. apply inner_comm.
Qed.

Lemma rotation_matrix_action (tx ty tz x y z : R) :
  Spec.mat_vec (perline_noise.rotation_matrix_3d tx ty tz) [x; y; z]
  = Spec.rot_z tz (Spec.rot_y ty (Spec.rot_x tx [x; y; z])).
Proof.
  cbv [perline_noise.rotation_matrix_3d perline_noise.R_x perline_noise.R_y
       perline_noise.R_z Np.dot Np.transpose Np.column Np.inner Spec.mat_vec
       Spec.rot_x Spec.rot_y Spec.rot_z map seq length hd nth].
  repeat (f_equal; try ring).
Qed.

Lemma three_columns_row (row : list R) :
  length row = 3%nat -> exists x y z, row = [x; y; z].
Proof.
  destruct row as [|x [|y [|z [|w rest]]]]; try discriminate.
  intros _. now exists x, y, z.
Qed.

Lemma sin_cos_square (t : R) : (sin t * sin t + cos t * cos t = 1)%R.
Proof. pose proof (sin2_cos2 t) as H. unfold Rsqr in H. exact H. Qed.

Lemma rot_x_keeps_norm (t x y z : R) :
  exists a b c : R,
    Spec.rot_x t [x; y; z] = [a; b; c] /\
    (a * a + b * b + c * c = x * x + y * y + z * z)%R.
Proof.
  do 3 eexists. split; [reflexivity|].
  transitivity (x * x + (sin t * sin t + cos t * cos t) * (y * y + z * z))%R;
    [ring | rewrite sin_cos_square; ring].
Qed.

Lemma rot_y_keeps_norm (t x y z : R) :
  exists a b c : R,
    Spec.rot_y t [x; y; z] = [a; b; c] /\
    (a * a + b * b + c * c = x * x + y * y + z * z)%R.
Proof.
  do 3 eexists. split; [reflexivity|].
  transitivity (y * y + (sin t * sin t + cos t * cos t) * (x * x + z * z))%R;
    [ring | rewrite sin_cos_square; ring].
Qed.

Lemma rot_z_keeps_norm (t x y z : R) :
  exists a b c : R,
    Spec.rot_z t [x; y; z] = [a; b; c] /\
    (a * a + b * b + c * c = x * x + y * y + z * z)%R.
Proof.
  do 3 eexists. split; [reflexivity|].
  transitivity (z * z + (sin t * sin t + cos t * cos t) * (x * x + y * y))%R;
    [ring | rewrite sin_cos_square; ring].
Qed.

Lemma rotation_zero_row (x y z : R) :
  Spec.mat_vec (perline_noise.rotation_matrix_3d 0 0 0) [x; y; z] = [x; y; z].
Proof.
  rewrite rotation_matrix_action.
  cbv [Spec.rot_x Spec.rot_y Spec.rot_z]. rewrite cos_0, sin_0.
  repeat (f_equal; try ring).
Qed.

(** X1. A rotation by the angles (0, 0, 0) leaves an array of shape (K, 3)
    as it is. *)
Theorem X1_zero_rotation_is_identity :
  forall vertices : Np.matrix,
    Shape.three_columns vertices ->
    perline_noise.rotate_vertices vertices 0 0 0 = vertices.
Proof.
  intros vertices Hrows. rewrite rotate_vertices_map.
  induction Hrows as [|row rest Hrow _ IH]; [reflexivity|].
  cbn [map]. rewrite IH. f_equal.
  destruct (three_columns_row row Hrow) as (x & y & z & ->).
  apply rotation_zero_row.
Qed.

Lemma X1_witness :
  perline_noise.rotate_vertices [[1; 2; 3]; [4; 5; 6]]%R 0 0 0
  = [[1; 2; 3]; [4; 5; 6]]%R.
Proof.
  apply X1_zero_rotation_is_identity.
  repeat constructor.
Defined.

(** X2. The rotation keeps the length of every vertex: the rotated vertex
    has the same squared Euclidean norm as the vertex it comes from. *)
Theorem X2_rotation_preserves_norm :
  forall (vertices : Np.matrix) (theta_x theta_y theta_z : R)
         (i : nat) (x y z : R),
    nth_error vertices i = Some [x; y; z] ->
    exists v' : list R,
      nth_error (perline_noise.rotate_vertices vertices theta_x theta_y theta_z) i
      = Some v' /\
      length v' = 3%nat /\
      Shape.norm2 v' = (x * x + y * y + z * z)%R.
Proof.
  intros vertices tx ty tz i x y z Hi.
  rewrite rotate_vertices_map, nth_error_map, Hi. cbn [option_map].
  eexists. split; [reflexivity|]. rewrite rotation_matrix_action.
  destruct (rot_x_keeps_norm tx x y z) as (a1 & b1 & c1 & -> & H1).
  destruct (rot_y_keeps_norm ty a1 b1 c1) as (a2 & b2 & c2 & -> & H2).
  destruct (rot_z_keeps_norm tz a2 b2 c2) as (a3 & b3 & c3 & -> & H3).
  split; [reflexivity|]. cbv [Shape.norm2 Np.inner]. lra.
Qed.

Lemma X2_witness :
  exists v' : list R,
    nth_error (perline_noise.rotate_vertices [[3; 4; 12]]%R (PI / 3) 1 (- PI)) 0
    = Some v' /\
    length v' = 3%nat /\
    Shape.norm2 v' = (3 * 3 + 4 * 4 + 12 * 12)%R.
Proof.
  exact (X2_rotation_preserves_norm [[3; 4; 12]]%R (PI / 3) 1 (- PI) 0 3 4 12
           eq_refl).
Defined.

Ltac trig_ring e :=
  transitivity e; [ring | rewrite sin_cos_square; ring].

Ltac trig_components t x y z :=
  repeat f_equal;
  first [ trig_ring ((sin t * sin t + cos t * cos t) * x)%R
        | trig_ring ((sin t * sin t + cos t * cos t) * y)%R
        | trig_ring ((sin t * sin t + cos t * cos t) * z)%R ].

Lemma rot_x_back (t x y z : R) :
  Spec.rot_x (- t) (Spec.rot_x t [x; y; z]) = [x; y; z].
Proof.
  cbv [Spec.rot_x]. rewrite cos_neg, sin_neg. trig_components t x y z.
Qed.

Lemma rot_y_back (t x y z : R) :
  Spec.rot_y (- t) (Spec.rot_y t [x; y; z]) = [x; y; z].
Proof.
  cbv [Spec.rot_y]. rewrite cos_neg, sin_neg. trig_components t x y z.
Qed.

Lemma rot_z_back (t x y z : R) :
  Spec.rot_z (- t) (Spec.rot_z t [x; y; z]) = [x; y; z].
Proof.
  cbv [Spec.rot_z]. rewrite cos_neg, sin_neg. trig_components t x y z.
Qed.

(** Multiplying a row by the rotation matrix itself, not transposed, undoes
    the three rotations in the opposite order. *)
Lemma rotation_matrix_transposed_action (tx ty tz a b c : R) :
  map (Np.inner [a; b; c])
      (Np.transpose (perline_noise.rotation_matrix_3d tx ty tz))
  = Spec.rot_x (- tx) (Spec.rot_y (- ty) (Spec.rot_z (- tz) [a; b; c])).
Proof.
  cbv [Spec.rot_x Spec.rot_y Spec.rot_z]. rewrite !cos_neg, !sin_neg.
  cbv [perline_noise.rotation_matrix_3d perline_noise.R_x perline_noise.R_y
       perline_noise.R_z Np.dot Np.transpose Np.column Np.inner
       map seq length hd nth].
  repeat (f_equal; try ring).
Qed.

Lemma rotation_round_trip_row (tx ty tz x y z : R) :
  map (Np.inner (Spec.mat_vec (perline_noise.rotation_matrix_3d tx ty tz) [x; y; z]))
      (Np.transpose (perline_noise.rotation_matrix_3d tx ty tz))
  = [x; y; z].
Proof.
  rewrite rotation_matrix_action.
  destruct (rot_x_keeps_norm tx x y z) as (a1 & b1 & c1 & E1 & _).
  destruct (rot_y_keeps_norm ty a1 b1 c1) as (a2 & b2 & c2 & E2 & _).
  destruct (rot_z_keeps_norm tz a2 b2 c2) as (a3 & b3 & c3 & E3 & _).
  rewrite E1, E2, E3, rotation_matrix_transposed_action.
  rewrite <- E3, rot_z_back, <- E2, rot_y_back, <- E1, rot_x_back.
  reflexivity.
Qed.

(** X3. The rotation is undone by multiplying the rotated array with the
    rotation matrix itself on the right: [np.dot(rotate_vertices(V, a, b, c),
    rotation_matrix_3d(a, b, c))] is [V] for an array of shape (K, 3). *)
Theorem X3_rotation_round_trip :
  forall (vertices : Np.matrix) (theta_x theta_y theta_z : R),
    Shape.three_columns vertices ->
    Np.dot (perline_noise.rotate_vertices vertices theta_x theta_y theta_z)
           (perline_noise.rotation_matrix_3d theta_x theta_y theta_z)
    = vertices.
Proof.
  intros vertices tx ty tz Hrows. rewrite rotate_vertices_map.
  unfold Np.dot. rewrite map_map.
  induction Hrows as [|row rest Hrow _ IH]; [reflexivity|].
  cbn [map]. rewrite IH. f_equal.
  destruct (three_columns_row row Hrow) as (x & y & z & ->).
  apply rotation_round_trip_row.
Qed.

Lemma X3_witness :
  Np.dot (perline_noise.rotate_vertices [[1; 2; 3]; [4; 5; 6]]%R 1 2 (PI / 7))
         (perline_noise.rotation_matrix_3d 1 2 (PI / 7))
  = [[1; 2; 3]; [4; 5; 6]]%R.
Proof.
  apply X3_rotation_round_trip. repeat constructor.
Defined.

(** ** The plain program: constructor, ticks and the timer loop *)

Lemma range3_length (start stop step : Z) :
  length (Np.range3 start stop step)
  = Z.to_nat ((stop - start + step - 1) / step).
Proof. unfold Np.range3. now rewrite length_map, length_seq. Qed.

Lemma range3_nth_error (start stop step : Z) (i : nat) :
  (i < length (Np.range3 start stop step))%nat ->
  nth_error (Np.range3 start stop step) i = Some (start + Z.of_nat i * step).
Proof.
  rewrite range3_length. intros Hi. unfold Np.range3.
  rewrite nth_error_map, nth_error_seq.
  destruct (Nat.ltb_spec i (Z.to_nat ((stop - start + step - 1) / step)));
    [reflexivity | lia].
Qed.

Lemma grid_Forall {A B C : Type} (P : C -> Prop) (row : Z * A -> Z * B -> C)
      (xs : list A) (ys : list B) :
  (forall nx my, P (row nx my)) ->
  Forall P (flat_map (fun nx => map (row nx) (Np.enumerate ys)) (Np.enumerate xs)).
Proof.
  intros HP. apply Forall_forall. intros c Hc.
  apply in_flat_map in Hc. destruct Hc as (nx & _ & Hc).
  apply in_map_iff in Hc. destruct Hc as (my & <- & _). apply HP.
Qed.

Lemma rotate_vertices_three_columns (vertices : Np.matrix) (tx ty tz : R) :
  Shape.three_columns (perline_noise.rotate_vertices vertices tx ty tz).
Proof.
  rewrite rotate_vertices_map. apply Forall_forall. intros row Hrow.
  apply in_map_iff in Hrow. destruct Hrow as (v & <- & _). reflexivity.
Qed.

Lemma rotate_vertices_length (vertices : Np.matrix) (tx ty tz : R) :
  length (perline_noise.rotate_vertices vertices tx ty tz) = length vertices.
Proof. rewrite rotate_vertices_map. apply length_map. Qed.

(** X4. The first frame, published by the constructor, is the lattice
    itself, not rotated: the vertex of node [(n, m)] is
    [(n - 20, m - 20, 1.5 * noise(n / 5, m / 5))] for the 42 x 42 nodes. *)
Theorem X4_constructor_frame :
  forall (noise2 : R -> R -> R) (n m : nat),
    (n < 42)%nat -> (m < 42)%nat ->
    length (vertexes (perline_noise.m1 (perline_noise.init noise2)))
    = (42 * 42)%nat /\
    nth_error (vertexes (perline_noise.m1 (perline_noise.init noise2)))
              (Spec.node_index 42 n m)
    = Some [INR n - 20; INR m - 20; 1.5 * noise2 (INR n / 5) (INR m / 5)]%R.
Proof.
  intros noise2 n m Hn Hm.
  change (vertexes (perline_noise.m1 (perline_noise.init noise2)))
    with (perline_noise.rotate_vertices
            (perline_noise.init_verts (Np.range3 (-20) 22 1) (Np.range3 (-20) 22 1)
                                      noise2) 0 0 0).
  split.
  - rewrite rotate_vertices_length. unfold perline_noise.init_verts.
    rewrite grid_length. reflexivity.
  - rewrite rotate_vertices_map, nth_error_map.
    unfold perline_noise.init_verts.
    change 42%nat with (length (Np.range3 (-20) 22 1)) at 1.
    rewrite (grid_nth_error _ _ _ n m (-20 + Z.of_nat n * 1) (-20 + Z.of_nat m * 1))
      by (apply range3_nth_error; rewrite range3_length; exact Hn || exact Hm).
    cbn [fst snd option_map]. rewrite rotation_zero_row.
    rewrite !plus_IZR, !mult_IZR, !IZR_of_nat.
    f_equal. f_equal; [lra | f_equal; lra].
Qed.

Lemma X4_witness :
  nth_error (vertexes (perline_noise.m1 (perline_noise.init ramp_noise)))
            (Spec.node_index 42 41 0)
  = Some [INR 41 - 20; INR 0 - 20; 1.5 * ramp_noise (INR 41 / 5) (INR 0 / 5)]%R.
Proof.
  refine (proj2 (X4_constructor_frame ramp_noise 41 0 _ _)); lia.
Defined.

Lemma ticks_succ (k : nat) (self : perline_noise.Terrain) :
  Loop.ticks (S k) self = perline_noise.update (Loop.ticks k self).
Proof. reflexivity. Qed.

Lemma ticks_add (j k : nat) (self : perline_noise.Terrain) :
  Loop.ticks (j + k) self = Loop.ticks j (Loop.ticks k self).
Proof. unfold Loop.ticks. apply Nat.iter_add. Qed.

Lemma ticks_lattice (k : nat) (self : perline_noise.Terrain) :
  perline_noise.xpoints (Loop.ticks k self) = perline_noise.xpoints self /\
  perline_noise.ypoints (Loop.ticks k self) = perline_noise.ypoints self /\
  perline_noise.nfaces (Loop.ticks k self) = perline_noise.nfaces self /\
  perline_noise.tmp (Loop.ticks k self) = perline_noise.tmp self.
Proof.
  induction k as [|k IH]; [repeat split|].
  rewrite ticks_succ. exact IH.
Qed.

Lemma ticks_state (k : nat) (self : perline_noise.Terrain) :
  perline_noise.theta_x (Loop.ticks k self)
  = (perline_noise.theta_x self - INR k * (PI / 60))%R /\
  perline_noise.theta_y (Loop.ticks k self)
  = (perline_noise.theta_y self + INR k * (PI / 40))%R /\
  perline_noise.theta_z (Loop.ticks k self)
  = (perline_noise.theta_z self - INR k * (PI / 30))%R /\
  perline_noise.offset (Loop.ticks k self)
  = (perline_noise.offset self - INR k * 0.18)%R.
Proof.
  induction k as [|k (Hx & Hy & Hz & Ho)].
  - change (Loop.ticks 0 self) with self. cbn [INR]. repeat split; ring.
  - rewrite ticks_succ, S_INR.
    cbn [perline_noise.update perline_noise.theta_x perline_noise.theta_y
         perline_noise.theta_z perline_noise.offset].
    rewrite Hx, Hy, Hz, Ho. repeat split; ring.
Qed.

(** X5. After [k] ticks the angles are [theta_x - k * pi / 60],
    [theta_y + k * pi / 40], [theta_z - k * pi / 30] and the offset is
    [offset - 0.18 * k]; [animation], whose timer fired [k] times, leaves
    them advanced [k + 1] times. *)
Theorem X5_state_after_k_ticks :
  forall (self : perline_noise.Terrain) (k : nat),
    (perline_noise.theta_x (Loop.ticks k self)
     = perline_noise.theta_x self - INR k * (PI / 60) /\
     perline_noise.theta_y (Loop.ticks k self)
     = perline_noise.theta_y self + INR k * (PI / 40) /\
     perline_noise.theta_z (Loop.ticks k self)
     = perline_noise.theta_z self - INR k * (PI / 30) /\
     perline_noise.offset (Loop.ticks k self)
     = perline_noise.offset self - INR k * 0.18)%R /\
    (perline_noise.theta_x (Loop.animation k self)
     = perline_noise.theta_x self - (INR k + 1) * (PI / 60) /\
     perline_noise.theta_y (Loop.animation k self)
     = perline_noise.theta_y self + (INR k + 1) * (PI / 40) /\
     perline_noise.theta_z (Loop.animation k self)
     = perline_noise.theta_z self - (INR k + 1) * (PI / 30) /\
     perline_noise.offset (Loop.animation k self)
     = perline_noise.offset self - (INR k + 1) * 0.18)%R.
Proof.
  intros self k. split; [apply ticks_state|].
  change (Loop.animation k self) with (Loop.ticks (S k) self).
  rewrite <- S_INR. apply ticks_state.
Qed.

Lemma cos_minus_turns (x : R) (k : nat) : cos (x - 2 * INR k * PI) = cos x.
Proof.
  rewrite <- (cos_period (x - 2 * INR k * PI) k). f_equal. ring.
Qed.

Lemma sin_minus_turns (x : R) (k : nat) : sin (x - 2 * INR k * PI) = sin x.
Proof.
  rewrite <- (sin_period (x - 2 * INR k * PI) k). f_equal. ring.
Qed.

(** The rotation matrix depends on the angles through their sines and
    cosines only. *)
Lemma rotation_matrix_ext (tx ty tz tx' ty' tz' : R) :
  cos tx = cos tx' -> sin tx = sin tx' ->
  cos ty = cos ty' -> sin ty = sin ty' ->
  cos tz = cos tz' -> sin tz = sin tz' ->
  perline_noise.rotation_matrix_3d tx ty tz
  = perline_noise.rotation_matrix_3d tx' ty' tz'.
Proof.
  intros Cx Sx Cy Sy Cz Sz.
  unfold perline_noise.rotation_matrix_3d, perline_noise.R_x, perline_noise.R_y,
    perline_noise.R_z.
  now rewrite Cx, Sx, Cy, Sy, Cz, Sz.
Qed.

(** X6. The rotation has a period of 240 ticks: 240 ticks later the three
    angles have moved by whole turns (2, 3 and 4 of them) and the rotation
    matrix applied to the vertices is the same. *)
Theorem X6_rotation_period_240_ticks :
  forall (self : perline_noise.Terrain) (k : nat),
    let now := Loop.ticks k self in
    let later := Loop.ticks (240 + k) self in
    perline_noise.rotation_matrix_3d
      (perline_noise.theta_x later) (perline_noise.theta_y later)
      (perline_noise.theta_z later)
    = perline_noise.rotation_matrix_3d
        (perline_noise.theta_x now) (perline_noise.theta_y now)
        (perline_noise.theta_z now).
Proof.
  intros self k now later. subst later. rewrite ticks_add. fold now.
  destruct (ticks_state 240 now) as (Hx & Hy & Hz & _).
  rewrite Hx, Hy, Hz.
  replace (INR 240) with 240%R by (rewrite INR_IZR_INZ; reflexivity).
  replace (perline_noise.theta_x now - 240 * (PI / 60))%R
    with (perline_noise.theta_x now - 2 * INR 2 * PI)%R by (cbn [INR]; field).
  replace (perline_noise.theta_y now + 240 * (PI / 40))%R
    with (perline_noise.theta_y now + 2 * INR 3 * PI)%R by (cbn [INR]; field).
  replace (perline_noise.theta_z now - 240 * (PI / 30))%R
    with (perline_noise.theta_z now - 2 * INR 4 * PI)%R by (cbn [INR]; field).
  apply rotation_matrix_ext.
  - apply cos_minus_turns.
  - apply sin_minus_turns.
  - apply cos_period.
  - apply sin_period.
  - apply cos_minus_turns.
  - apply sin_minus_turns.
Qed.

Lemma loop_faces_in_range (nfaces : Z) (c1 c2 : Z -> Z -> list R)
      (face : list Z) (i : Z) :
  In face (fst (Topology.loop nfaces c1 c2)) -> In i face ->
  0 <= i < nfaces * nfaces.
Proof.
  rewrite loop_faces. intros Hface Hi.
  apply quads_In in Hface. destruct Hface as (n & m & Hn & Hm & Hface).
  destruct Hface as [-> | ->]; simpl in Hi;
    repeat (destruct Hi as [<- | Hi]; [nia|]); contradiction.
Qed.

Lemma to_uint32_le (v : Z) : 0 <= v -> 0 <= Np.to_uint32 v <= v.
Proof.
  intros Hv. unfold Np.to_uint32.
  split; [apply Z.mod_pos_bound; lia | apply Z.mod_le; lia].
Qed.

Lemma cast_faces_in_range (nfaces : Z) (c1 c2 : Z -> Z -> list R)
      (face : list Z) (i : Z) :
  In face (map (map Np.to_uint32) (fst (Topology.loop nfaces c1 c2))) ->
  In i face -> 0 <= i < nfaces * nfaces.
Proof.
  intros Hface Hi.
  apply in_map_iff in Hface. destruct Hface as (raw & <- & Hraw).
  apply in_map_iff in Hi. destruct Hi as (v & <- & Hv).
  pose proof (loop_faces_in_range nfaces c1 c2 raw v Hraw Hv) as Hb.
  pose proof (to_uint32_le v ltac:(lia)). lia.
Qed.

Lemma loop_lengths (nfaces : Z) (c1 c2 : Z -> Z -> list R) :
  length (fst (Topology.loop nfaces c1 c2))
  = length (snd (Topology.loop nfaces c1 c2)).
Proof. now rewrite loop_faces, loop_colors, !quads_length. Qed.

Lemma loop_faces_rows (nfaces : Z) (c1 c2 : Z -> Z -> list R) :
  Forall (fun face => length face = 3%nat)
         (map (map Np.to_uint32) (fst (Topology.loop nfaces c1 c2))).
Proof.
  apply Forall_forall. intros face Hface.
  apply in_map_iff in Hface. destruct Hface as (raw & <- & Hraw).
  rewrite length_map. rewrite loop_faces in Hraw.
  apply quads_In in Hraw. destruct Hraw as (n & m & _ & _ & [-> | ->]);
    reflexivity.
Qed.

Lemma gradient_colors_rows (nfaces : Z) :
  Forall (fun c => length c = 4%nat)
         (snd (Topology.loop nfaces (Topology.gradient nfaces 0.7)
                                    (Topology.gradient nfaces 0.8))).
Proof.
  apply Forall_forall. intros c Hc. rewrite loop_colors in Hc.
  apply quads_In in Hc. destruct Hc as (n & m & _ & _ & [-> | ->]); reflexivity.
Qed.

(** X7. Ticks change neither the lattice, nor [nfaces], nor the noise
    generator, so a square lattice stays square and every tick publishes
    the same face array and the same colour array. *)
Theorem X7_ticks_keep_lattice_and_topology :
  forall (self : perline_noise.Terrain) (k : nat),
    perline_noise.xpoints (Loop.ticks k self) = perline_noise.xpoints self /\
    perline_noise.ypoints (Loop.ticks k self) = perline_noise.ypoints self /\
    perline_noise.nfaces (Loop.ticks k self) = perline_noise.nfaces self /\
    perline_noise.tmp (Loop.ticks k self) = perline_noise.tmp self /\
    (Shape.square self -> Shape.square (Loop.ticks k self)) /\
    faces (perline_noise.m1 (Loop.ticks (S k) self))
    = faces (perline_noise.m1 (perline_noise.update self)) /\
    faceColors (perline_noise.m1 (Loop.ticks (S k) self))
    = faceColors (perline_noise.m1 (perline_noise.update self)).
Proof.
  intros self k.
  destruct (ticks_lattice k self) as (Hx & Hy & Hn & Ht).
  repeat split; try assumption.
  - unfold Shape.square in *. rewrite Hn, Hy. tauto.
  - unfold Shape.square in *. rewrite Hx, Hy. tauto.
  - rewrite ticks_succ.
    cbn [perline_noise.update perline_noise.m1 faces perline_noise.nfaces].
    now rewrite Hn.
  - rewrite ticks_succ.
    cbn [perline_noise.update perline_noise.m1 faceColors perline_noise.nfaces].
    now rewrite Hn.
Qed.

Lemma X7_witness :
  Shape.square (Loop.ticks 3 (perline_noise.init ramp_noise)).
Proof.
  refine (proj1 (proj2 (proj2 (proj2 (proj2
            (X7_ticks_keep_lattice_and_topology (perline_noise.init ramp_noise) 3)))))
            _).
  split; reflexivity.
Defined.

(** X8. On a square lattice the mesh published by a tick is consistent:
    there is one vertex row of three coordinates per lattice node, one
    colour of four channels per face of three indices, and every index of
    every face is the position of a published vertex. *)
Theorem X8_published_mesh_is_consistent :
  forall self : perline_noise.Terrain,
    Shape.square self ->
    let d := perline_noise.m1 (perline_noise.update self) in
    Np.len (vertexes d) = perline_noise.nfaces self * perline_noise.nfaces self /\
    Shape.three_columns (vertexes d) /\
    Shape.in_bounds (faces d) (vertexes d) /\
    length (faces d) = length (faceColors d) /\
    Forall (fun face => length face = 3%nat) (faces d) /\
    Forall (fun c => length c = 4%nat) (faceColors d).
Proof.
  intros self (Hn & Hsq) d.
  assert (Hlen : Np.len (vertexes d)
                 = perline_noise.nfaces self * perline_noise.nfaces self).
  { subst d. rewrite perline_update_vertexes. unfold Np.len in *.
    rewrite rotate_vertices_length. unfold perline_noise.update_verts.
    rewrite grid_length, Hn, Hsq. lia. }
  split; [exact Hlen|]. split; [|split; [|split; [|split]]].
  - subst d. rewrite perline_update_vertexes. apply rotate_vertices_three_columns.
  - intros face i Hface Hi. rewrite Hlen.
    exact (cast_faces_in_range _ _ _ face i Hface Hi).
  - subst d. cbn [perline_noise.update perline_noise.m1 faces faceColors].
    rewrite length_map. apply loop_lengths.
  - apply loop_faces_rows.
  - apply gradient_colors_rows.
Qed.

Lemma X8_witness :
  Shape.in_bounds
    (faces (perline_noise.m1 (perline_noise.update (perline_noise.init ramp_noise))))
    (vertexes (perline_noise.m1 (perline_noise.update (perline_noise.init ramp_noise)))).
Proof.
  refine (proj1 (proj2 (proj2
            (X8_published_mesh_is_consistent (perline_noise.init ramp_noise) _)))).
  split; reflexivity.
Defined.

(** ** The face loop against the vertex order *)

Lemma to_uint32_small (v : Z) : 0 <= v < 4294967296 -> Np.to_uint32 v = v.
Proof. intros Hv. unfold Np.to_uint32. now apply Z.mod_small. Qed.

(** X9. The faces join neighbouring lattice nodes in the order of the
    vertex array: for a lattice of at most 65536 points per axis, the two
    triangles of the cell between rows [a], [a + 1] and columns [b], [b + 1]
    are (node (a, b), node (a+1, b), node (a+1, b+1)) and
    (node (a, b), node (a, b+1), node (a+1, b+1)), where node (i, j) is the
    position [i * N + j] of that node's vertex. *)
Theorem X9_faces_join_neighbouring_nodes :
  forall (N a b : nat) (c1 c2 : Z -> Z -> list R),
    (a + 1 < N)%nat -> (b + 1 < N)%nat -> Z.of_nat N <= 65536 ->
    let faces := map (map Np.to_uint32) (fst (Topology.loop (Z.of_nat N) c1 c2)) in
    let node i j := Z.of_nat (Spec.node_index N i j) in
    let q := Spec.quad_index (Z.of_nat N) (Z.of_nat b) (Z.of_nat a) in
    nth_error faces q
    = Some [node a b; node (a + 1)%nat b; node (a + 1)%nat (b + 1)%nat] /\
    nth_error faces (S q)
    = Some [node a b; node a (b + 1)%nat; node (a + 1)%nat (b + 1)%nat].
Proof.
  intros N a b c1 c2 Ha Hb HN faces node q. subst faces q.
  rewrite loop_faces, !nth_error_map.
  destruct (quads_nth_error (Z.of_nat N) (Spec.face1 (Z.of_nat N))
              (Spec.face2 (Z.of_nat N)) (Z.of_nat b) (Z.of_nat a)
              ltac:(lia) ltac:(lia)) as (-> & ->).
  cbn [option_map]. unfold Spec.face1, Spec.face2. cbn [map].
  rewrite !to_uint32_small by nia.
  subst node. unfold Spec.node_index.
  split; do 2 f_equal; repeat (f_equal; try lia).
Qed.

Lemma X9_witness :
  nth_error (map (map Np.to_uint32)
               (fst (Topology.loop (Z.of_nat 42) Topology.black Topology.black)))
            (Spec.quad_index (Z.of_nat 42) (Z.of_nat 40) (Z.of_nat 40))
  = Some [Z.of_nat (Spec.node_index 42 40 40);
          Z.of_nat (Spec.node_index 42 (40 + 1) 40);
          Z.of_nat (Spec.node_index 42 (40 + 1) (40 + 1))].
Proof.
  refine (proj1 (X9_faces_join_neighbouring_nodes 42 40 40 _ _ _ _ _)); lia.
Defined.

(** X10. No triangle is degenerate: for a lattice of at most 65536 points
    per axis every published face lists three strictly increasing, hence
    distinct, vertex indices. *)
Theorem X10_faces_are_proper_triangles :
  forall (nfaces : Z) (c1 c2 : Z -> Z -> list R) (face : list Z),
    nfaces <= 65536 ->
    In face (map (map Np.to_uint32) (fst (Topology.loop nfaces c1 c2))) ->
    exists i j k : Z, face = [i; j; k] /\ 0 <= i < j /\ j < k.
Proof.
  intros nfaces c1 c2 face HN Hface.
  apply in_map_iff in Hface. destruct Hface as (raw & <- & Hraw).
  rewrite loop_faces in Hraw.
  apply quads_In in Hraw. destruct Hraw as (n & m & Hn & Hm & Hraw).
  destruct Hraw as [-> | ->]; unfold Spec.face1, Spec.face2; cbn [map];
    rewrite !to_uint32_small by nia;
    do 3 eexists; (split; [reflexivity | nia]).
Qed.

Lemma X10_witness :
  exists i j k : Z, [0; 42; 43] = [i; j; k] /\ 0 <= i < j /\ j < k.
Proof.
  refine (X10_faces_are_proper_triangles 42 Topology.black Topology.black
            [0; 42; 43] _ _); [lia|].
  rewrite loop_faces. apply in_map_iff. exists (Spec.face1 42 0 0).
  split; [reflexivity|].
  unfold Spec.quads. apply in_flat_map. exists 0. split; [apply range_In; lia|].
  unfold Spec.quad_row. apply in_flat_map. exists 0.
  split; [apply range_In; lia | left; reflexivity].
Defined.

(** ** Colours *)

Lemma ratio_unit (n N : Z) :
  0 <= n < N -> (0 <= IZR n / IZR N <= 1)%R.
Proof.
  intros Hn.
  assert (H0 : (0 <= IZR n)%R) by (apply IZR_le; lia).
  assert (H1 : (IZR n <= IZR N)%R) by (apply IZR_le; lia).
  assert (HN : (0 < IZR N)%R) by (apply IZR_lt; lia).
  pose proof (Rinv_0_lt_compat _ HN) as Hi.
  assert (Hr : (IZR N * / IZR N = 1)%R) by (apply Rinv_r; lra).
  unfold Rdiv. split; nra.
Qed.

Lemma gradient_unit (nfaces : Z) (alpha : R) (n m : Z) :
  0 <= n < nfaces - 1 -> 0 <= m < nfaces - 1 -> (0 <= alpha <= 1)%R ->
  Forall Shape.unit_channel (Topology.gradient nfaces alpha n m).
Proof.
  intros Hn Hm Ha.
  pose proof (ratio_unit n nfaces ltac:(lia)) as Rn.
  pose proof (ratio_unit m nfaces ltac:(lia)) as Rm.
  unfold Topology.gradient, Shape.unit_channel.
  repeat (apply Forall_cons; [lra|]). apply Forall_nil.
Qed.

Lemma gradient_colors_unit (nfaces : Z) :
  Forall (Forall Shape.unit_channel)
         (snd (Topology.loop nfaces (Topology.gradient nfaces 0.7)
                                    (Topology.gradient nfaces 0.8))).
Proof.
  apply Forall_forall. intros c Hc. rewrite loop_colors in Hc.
  apply quads_In in Hc. destruct Hc as (n & m & Hn & Hm & [-> | ->]);
    apply gradient_unit; try assumption; lra.
Qed.

(** X11. Every channel of every published colour lies between 0 and 1: in
    the colour arrays of the ticks of the plain program, of its constructor,
    and of every [mesh] of the audio program. *)
Theorem X11_color_channels_in_unit_interval :
  (forall self : perline_noise.Terrain,
      Forall (Forall Shape.unit_channel)
             (faceColors (perline_noise.m1 (perline_noise.update self)))) /\
  (forall noise2 : R -> R -> R,
      Forall (Forall Shape.unit_channel)
             (faceColors (perline_noise.m1 (perline_noise.init noise2)))) /\
  (forall (self : test.Terrain) (off h : R) (wf : option (list byte))
          (verts : Np.matrix) (faces : list (list Z)) (colors : Np.matrix),
      test.mesh self off h wf = Ok (verts, faces, colors) ->
      Forall (Forall Shape.unit_channel) colors).
Proof.
  split; [|split].
  - intros self. apply gradient_colors_unit.
  - intros noise2. rewrite perline_init_colors.
    apply Forall_forall. intros c Hc.
    apply quads_In in Hc. destruct Hc as (n & m & _ & _ & [-> | ->]);
      unfold Topology.black, Shape.unit_channel;
      repeat (apply Forall_cons; [lra|]); apply Forall_nil.
  - intros self off h wf verts faces colors Hmesh.
    unfold test.mesh in Hmesh.
    destruct (test.amplitudes self wf) as [amp|e]; [|discriminate].
    cbn [bind] in Hmesh. injection Hmesh as _ _ <-.
    apply gradient_colors_unit.
Qed.

Lemma X11_witness :
  exists (verts : Np.matrix) (faces : list (list Z)) (colors : Np.matrix),
    test.mesh (test.init_self ramp_noise) 0 3.5 None = Ok (verts, faces, colors) /\
    Forall (Forall Shape.unit_channel) colors.
Proof.
  do 3 eexists. split; [reflexivity|].
  exact (proj2 (proj2 X11_color_channels_in_unit_interval)
           (test.init_self ramp_noise) 0%R 3.5%R None _ _ _ eq_refl).
Defined.

(** ** The amplitudes and heights of the audio program *)

Lemma In_firstn_skipn {A : Type} (x : A) (c k : nat) (l : list A) :
  In x (firstn c (skipn k l)) -> In x l.
Proof.
  intros H.
  rewrite <- (firstn_skipn k l). apply in_or_app. right.
  rewrite <- (firstn_skipn c (skipn k l)). apply in_or_app. now left.
Qed.

Lemma reshape_In {A : Type} (a : list A) (rows cols : nat)
      (g : list (list A)) (row : list A) (x : A) :
  Np.reshape a rows cols = Ok g -> In row g -> In x row -> In x a.
Proof.
  unfold Np.reshape.
  destruct (Nat.eqb (length a) (rows * cols)); [|discriminate].
  intros H Hrow Hx. injection H as <-.
  apply in_map_iff in Hrow. destruct Hrow as (r & <- & _).
  now apply In_firstn_skipn in Hx.
Qed.

Lemma signed8_range (b : byte) : -128 <= Spec.signed8 b <= 127.
Proof. apply to_int8_range. Qed.

(** Whenever the pipeline returns, it returns the reshaped signed samples. *)
Lemma amplitudes_some_inv (self : test.Terrain) (wf_data : list byte)
      (amp : Np.matrix) :
  test.amplitudes self (Some wf_data) = Ok amp ->
  Np.len wf_data = 2 * test.CHUNK self /\
  Np.reshape (map (fun b => (IZR (Spec.signed8 b) * 0.04)%R)
                  (Np.every_other wf_data))
             (length (test.xpoints self)) (length (test.ypoints self))
  = Ok amp.
Proof.
  unfold test.amplitudes, struct_unpack_B.
  destruct (Z.eqb_spec (Np.len wf_data) (2 * test.CHUNK self)) as [Hlen|];
    [|discriminate].
  cbn [bind]. rewrite pipeline_flat. intros H. now split.
Qed.

(** X12. Every amplitude computed from a capture lies between
    [-128 * 0.04 = -5.12] and [127 * 0.04 = 5.08]. *)
Theorem X12_amplitudes_are_bounded :
  forall (self : test.Terrain) (wf_data : list byte) (amp : Np.matrix)
         (row : list R) (a : R),
    test.amplitudes self (Some wf_data) = Ok amp ->
    In row amp -> In a row ->
    (-5.12 <= a <= 5.08)%R.
Proof.
  intros self wf amp row a Hamp Hrow Ha.
  destruct (amplitudes_some_inv self wf amp Hamp) as (_ & Hre).
  pose proof (reshape_In _ _ _ _ row a Hre Hrow Ha) as Hin.
  apply in_map_iff in Hin. destruct Hin as (b & <- & _).
  pose proof (signed8_range b) as (Hlo & Hhi).
  apply IZR_le in Hlo, Hhi. lra.
Qed.

Lemma X12_witness :
  (-5.12 <= IZR (Spec.signed8 xff) * 0.04 <= 5.08)%R.
Proof.
  refine (X12_amplitudes_are_bounded
            (test.mkTerrain (13 # 10) [0%R] [0%R] 1 44100 1 ramp_noise 0
                            (mkMeshData [] [] []))
            [xff; x7f] [[IZR (Spec.signed8 xff) * 0.04]]%R
            [IZR (Spec.signed8 xff) * 0.04]%R _ _ _ _).
  - reflexivity.
  - left. reflexivity.
  - left. reflexivity.
Defined.

(** Entry [(n, m)] of the amplitude grid of a well-sized capture. *)
Lemma amplitude_entry (self : test.Terrain) (wf_data : list byte)
      (amp : Np.matrix) (n m : nat) :
  test.amplitudes self (Some wf_data) = Ok amp ->
  (n < length (test.xpoints self))%nat ->
  (m < length (test.ypoints self))%nat ->
  exists b : byte,
    nth_error wf_data (2 * (n * length (test.ypoints self) + m)) = Some b /\
    Np.get2 amp (Z.of_nat n) (Z.of_nat m) = (IZR (Spec.signed8 b) * 0.04)%R.
Proof.
  intros Hamp Hn Hm.
  destruct (amplitudes_some_inv self wf_data amp Hamp) as (_ & Hre).
  rewrite (reshape_get2 _ _ _ _ n m Hre Hn Hm).
  assert (Hlen : length (map (fun b => (IZR (Spec.signed8 b) * 0.04)%R)
                             (Np.every_other wf_data))
                 = (length (test.xpoints self) * length (test.ypoints self))%nat).
  { unfold Np.reshape in Hre.
    destruct (Nat.eqb_spec
                (length (map (fun b => (IZR (Spec.signed8 b) * 0.04)%R)
                             (Np.every_other wf_data)))
                (length (test.xpoints self) * length (test.ypoints self)));
      [assumption | discriminate]. }
  assert (Hidx : (n * length (test.ypoints self) + m
                  < length (map (fun b => (IZR (Spec.signed8 b) * 0.04)%R)
                                (Np.every_other wf_data)))%nat)
    by (rewrite Hlen; nia).
  apply nth_error_Some in Hidx.
  rewrite nth_error_map, every_other_nth_error in Hidx.
  destruct (nth_error wf_data (2 * (n * length (test.ypoints self) + m)))
    as [b|] eqn:Hb; [|now elim Hidx].
  exists b. split; [reflexivity|].
  apply nth_error_nth. now rewrite nth_error_map, every_other_nth_error, Hb.
Qed.

(** X13. [mesh] reads the even-indexed bytes of the capture only: two
    captures of the same length that agree on them give the same mesh. *)
Theorem X13_mesh_ignores_odd_bytes :
  forall (self : test.Terrain) (off h : R) (wf1 wf2 : list byte),
    length wf1 = length wf2 ->
    Np.every_other wf1 = Np.every_other wf2 ->
    test.mesh self off h (Some wf1) = test.mesh self off h (Some wf2).
Proof.
  intros self off h wf1 wf2 Hlen Heven.
  unfold test.mesh. f_equal.
  unfold test.amplitudes, struct_unpack_B, Np.len. rewrite Hlen.
  destruct (Z.of_nat (length wf2) =? 2 * test.CHUNK self); [|reflexivity].
  cbn [bind]. now rewrite !pipeline_flat, Heven.
Qed.

Lemma X13_witness :
  test.mesh (test.init_self ramp_noise) 0 3.5 (Some silence)
  = test.mesh (test.init_self ramp_noise) 0 3.5 (Some silence_high).
Proof.
  apply X13_mesh_ignores_odd_bytes; reflexivity.
Defined.

(** X14. A capture of the right length whose even-indexed bytes are all 0
    flattens the surface: [mesh] returns and every vertex has height 0. *)
Theorem X14_silence_gives_a_flat_mesh :
  forall (self : test.Terrain) (off h : R) (wf_data : list byte),
    Spec.constructed self ->
    Np.len wf_data = 2 * test.CHUNK self ->
    (forall k : nat, forall b : byte,
        nth_error wf_data (2 * k) = Some b -> b = x00) ->
    exists (verts : Np.matrix) (faces : list (list Z)) (colors : Np.matrix),
      test.mesh self off h (Some wf_data) = Ok (verts, faces, colors) /\
      forall (n m : nat) (x y : R),
        nth_error (test.xpoints self) n = Some x ->
        nth_error (test.ypoints self) m = Some y ->
        nth_error verts (Spec.node_index (length (test.ypoints self)) n m)
        = Some [x; y; 0%R].
Proof.
  intros self off h wf Hc Hlen Hzero.
  pose proof (amplitudes_some self wf Hc Hlen) as Hamp.
  unfold test.mesh. rewrite Hamp. cbn [bind].
  do 3 eexists. split; [reflexivity|].
  intros n m x y Hx Hy.
  rewrite (test_mesh_verts_row self off _ n m x y Hx Hy).
  destruct (amplitude_entry self wf _ n m Hamp) as (b & Hb & ->).
  - apply nth_error_Some. congruence.
  - apply nth_error_Some. congruence.
  - rewrite (Hzero _ b Hb).
    change (Spec.signed8 x00) with 0. do 4 f_equal. lra.
Qed.

Lemma every_other_silence_high (k : nat) (b : byte) :
  nth_error silence_high (2 * k) = Some b -> b = x00.
Proof.
  rewrite <- every_other_nth_error.
  change (Np.every_other silence_high) with (repeat x00 1024).
  intros H. apply nth_error_In, repeat_spec in H. exact H.
Qed.

Lemma X14_witness :
  exists (verts : Np.matrix) (faces : list (list Z)) (colors : Np.matrix),
    test.mesh (test.init_self ramp_noise) 0 3.5 (Some silence_high)
    = Ok (verts, faces, colors) /\
    nth_error verts (Spec.node_index 32 0 0)
    = Some [Q2R (-20 + inject_Z 0 * (13 # 10)); Q2R (-20 + inject_Z 0 * (13 # 10));
            0%R].
Proof.
  destruct (X14_silence_gives_a_flat_mesh (test.init_self ramp_noise) 0%R 3.5%R
              silence_high (test_init_self_constructed ramp_noise) eq_refl
              every_other_silence_high)
    as (verts & faces & colors & Hmesh & Hrows).
  exists verts, faces, colors. split; [exact Hmesh|].
  exact (Hrows 0%nat 0%nat _ _ eq_refl eq_refl).
Defined.

(** ** Ticks of the audio program *)

Lemma test_update_self_after (self : test.Terrain) (stream : test.Stream) :
  test.self_after (test.update self stream) = self \/
  exists d : MeshData,
    test.self_after (test.update self stream) = test.set_mesh1 self d.
Proof.
  unfold test.update, test.update_try.
  destruct (test.is_active stream) as [[|]|[| |msg]]; try (now left).
  destruct (test.read stream (test.CHUNK self)) as [wf|[| |msg]];
    try (now left).
  destruct (test.mesh self (test.offset self) 3.5 (Some wf)) as [vfc|[| |msg]];
    try (now left).
  right. eexists. reflexivity.
Qed.

(** X15. A read that delivers a capture of the wrong length is not caught:
    [struct.error] escapes from [update], which has printed nothing and
    left the object, the published mesh included, as it was. *)
Theorem X15_wrong_length_read_escapes :
  forall (self : test.Terrain) (stream : test.Stream) (wf_data : list byte),
    test.is_active stream = Ok true ->
    test.read stream (test.CHUNK self) = Ok wf_data ->
    Np.len wf_data <> 2 * test.CHUNK self ->
    test.update self stream = test.mkOutcome self [] (Some StructError).
Proof.
  intros self stream wf Hactive Hread Hlen.
  unfold test.update, test.update_try, test.mesh, test.amplitudes.
  now rewrite Hactive, Hread, (struct_unpack_B_error _ _ Hlen).
Qed.

Lemma X15_witness :
  test.update (test.init_self ramp_noise) capture_short
  = test.mkOutcome (test.init_self ramp_noise) [] (Some StructError).
Proof.
  apply (X15_wrong_length_read_escapes _ capture_short [x00; x01; x02]);
    try reflexivity.
  discriminate.
Defined.

(** X16. No [OSError] escapes from [update], whichever call raised it; one
    raised by [is_active] is handled like one raised by [read].  For an
    object as the constructor leaves it, an exception that does escape was
    raised by the stream itself or is the [struct.error] of a capture of the
    wrong length. *)
Theorem X16_escaping_exceptions :
  forall (self : test.Terrain) (stream : test.Stream),
    (forall msg : string,
        test.raised (test.update self stream) <> Some (OSError msg)) /\
    (forall msg : string,
        test.is_active stream = Raise (OSError msg) ->
        test.update self stream
        = test.mkOutcome self [("Error reading stream: " ++ msg)%string] None) /\
    (forall e : exn,
        Spec.constructed self ->
        test.raised (test.update self stream) = Some e ->
        test.is_active stream = Raise e \/
        test.read stream (test.CHUNK self) = Raise e \/
        (e = StructError /\
         exists wf_data,
           test.read stream (test.CHUNK self) = Ok wf_data /\
           Np.len wf_data <> 2 * test.CHUNK self)).
Proof.
  intros self stream. split; [|split].
  - intros msg. unfold test.update.
    destruct (test.update_try self stream) as [s' [[| |m]|]]; discriminate.
  - intros msg H. unfold test.update, test.update_try. now rewrite H.
  - intros e Hc. unfold test.update, test.update_try.
    destruct (test.is_active stream) as [[|]|e1].
    + destruct (test.read stream (test.CHUNK self)) as [wf|e2].
      * destruct (Z.eq_dec (Np.len wf) (2 * test.CHUNK self)) as [Hlen|Hlen].
        -- unfold test.mesh. rewrite (amplitudes_some self wf Hc Hlen).
           cbn. discriminate.
        -- unfold test.mesh, test.amplitudes.
           rewrite (struct_unpack_B_error _ _ Hlen). cbn.
           intros H. injection H as <-. right. right.
           split; [reflexivity|]. now exists wf.
      * destruct e2; cbn; intros H; try discriminate;
          injection H as <-; right; now left.
    + cbn. discriminate.
    + destruct e1; cbn; intros H; try discriminate;
        injection H as <-; now left.
Qed.

Lemma X16_witness :
  test.update (test.init_self ramp_noise) capture_closed
  = test.mkOutcome (test.init_self ramp_noise)
      ["Error reading stream: Stream closed"%string] None /\
  (test.is_active capture_short = Raise StructError \/
   test.read capture_short (test.CHUNK (test.init_self ramp_noise))
   = Raise StructError \/
   (StructError = StructError /\
    exists wf_data,
      test.read capture_short (test.CHUNK (test.init_self ramp_noise))
      = Ok wf_data /\
      Np.len wf_data <> 2 * test.CHUNK (test.init_self ramp_noise))).
Proof.
  split.
  - exact (proj1 (proj2 (X16_escaping_exceptions (test.init_self ramp_noise)
                           capture_closed)) "Stream closed"%string eq_refl).
  - exact (proj2 (proj2 (X16_escaping_exceptions (test.init_self ramp_noise)
                           capture_short)) StructError
             (test_init_self_constructed ramp_noise) eq_refl).
Defined.

Lemma test_init_inv (noise2 : R -> R -> R) (self : test.Terrain) :
  test.init noise2 = Ok self ->
  exists d : MeshData, self = test.set_mesh1 (test.init_self noise2) d.
Proof.
  unfold test.init.
  destruct (test.mesh (test.init_self noise2) 0 3.5 None) as [vfc|e];
    [|discriminate].
  cbn [bind]. intros H. injection H as <-. eexists. reflexivity.
Qed.

(** X17. The constructor leaves a square lattice of [nfaces] points per
    axis with [CHUNK] equal to its node count and the offset 0; a tick,
    however it ends, changes nothing of the object but the published mesh,
    so these facts hold at every tick. *)
Theorem X17_ticks_change_only_the_mesh :
  (forall (noise2 : R -> R -> R) (self : test.Terrain),
      test.init noise2 = Ok self ->
      Spec.constructed self /\ test.offset self = 0%R /\
      test.noise self = noise2) /\
  (forall (self : test.Terrain) (stream : test.Stream),
      let self' := test.self_after (test.update self stream) in
      test.xpoints self' = test.xpoints self /\
      test.ypoints self' = test.ypoints self /\
      test.nfaces self' = test.nfaces self /\
      test.CHUNK self' = test.CHUNK self /\
      test.RATE self' = test.RATE self /\
      test.noise self' = test.noise self /\
      test.offset self' = test.offset self /\
      (Spec.constructed self -> Spec.constructed self')).
Proof.
  split.
  - intros noise2 self Hinit.
    destruct (test_init_inv noise2 self Hinit) as (d & ->).
    repeat split.
  - intros self stream self'. subst self'.
    destruct (test_update_self_after self stream) as [-> | (d & ->)];
      repeat (split; [reflexivity|]); intros H; exact H.
Qed.

Lemma X17_witness :
  Spec.constructed
    (test.self_after (test.update (test.init_self ramp_noise) capture_ok)).
Proof.
  exact (proj2 (proj2 (proj2 (proj2 (proj2 (proj2 (proj2
           (proj2 X17_ticks_change_only_the_mesh
              (test.init_self ramp_noise) capture_ok)))))))
           (test_init_self_constructed ramp_noise)).
Defined.

Lemma test_mesh_verts_three_columns (self : test.Terrain) (off : R)
      (amp : Np.matrix) :
  Shape.three_columns (test.mesh_verts self off amp).
Proof.
  unfold test.mesh_verts. apply grid_Forall. intros nx my. reflexivity.
Qed.

(** X18. When the stream of an object as the constructor leaves it is active
    and delivers a capture of [2 * CHUNK] bytes, the tick raises nothing,
    prints nothing and publishes a consistent mesh: one vertex row of three
    coordinates per lattice node, one colour per face, and every index of
    every face the position of a published vertex. *)
Theorem X18_good_capture_publishes_consistent_mesh :
  forall (self : test.Terrain) (stream : test.Stream) (wf_data : list byte),
    Spec.constructed self ->
    test.is_active stream = Ok true ->
    test.read stream (test.CHUNK self) = Ok wf_data ->
    Np.len wf_data = 2 * test.CHUNK self ->
    let out := test.update self stream in
    let d := test.mesh1 (test.self_after out) in
    test.raised out = None /\
    test.printed out = [] /\
    Np.len (vertexes d) = test.nfaces self * test.nfaces self /\
    Shape.three_columns (vertexes d) /\
    Shape.in_bounds (faces d) (vertexes d) /\
    length (faces d) = length (faceColors d).
Proof.
  intros self stream wf Hc Hactive Hread Hlen out d.
  pose proof (amplitudes_some self wf Hc Hlen) as Hamp.
  assert (Hout : out
                 = test.mkOutcome
                     (test.set_mesh1 self
                        (mkMeshData
                           (test.mesh_verts self (test.offset self)
                              (map (fun r =>
                                 firstn (length (test.ypoints self))
                                   (skipn (r * length (test.ypoints self))
                                      (map (fun b => (IZR (Spec.signed8 b) * 0.04)%R)
                                           (Np.every_other wf))))
                                 (seq 0 (length (test.xpoints self)))))
                           (map (map Np.to_uint32)
                              (fst (Topology.loop (test.nfaces self)
                                      (Topology.gradient (test.nfaces self) 0.7)
                                      (Topology.gradient (test.nfaces self) 0.8))))
                           (snd (Topology.loop (test.nfaces self)
                                   (Topology.gradient (test.nfaces self) 0.7)
                                   (Topology.gradient (test.nfaces self) 0.8)))))
                     [] None).
  { subst out. unfold test.update, test.update_try, test.mesh.
    now rewrite Hactive, Hread, Hamp. }
  subst d. rewrite Hout.
  cbn [test.raised test.printed test.self_after test.set_mesh1 test.mesh1
       vertexes faces faceColors].
  destruct Hc as (Hn & Hsq & _).
  assert (Hverts : Np.len (test.mesh_verts self (test.offset self)
                     (map (fun r =>
                        firstn (length (test.ypoints self))
                          (skipn (r * length (test.ypoints self))
                             (map (fun b => (IZR (Spec.signed8 b) * 0.04)%R)
                                  (Np.every_other wf))))
                        (seq 0 (length (test.xpoints self)))))
                   = test.nfaces self * test.nfaces self).
  { unfold Np.len in *. unfold test.mesh_verts.
    rewrite grid_length, Hn, Hsq. lia. }
  split; [reflexivity|]. split; [reflexivity|]. split; [exact Hverts|].
  split; [apply test_mesh_verts_three_columns|]. split.
  - intros face i Hface Hi. rewrite Hverts.
    exact (cast_faces_in_range _ _ _ face i Hface Hi).
  - rewrite length_map. apply loop_lengths.
Qed.

Lemma X18_witness :
  test.raised (test.update (test.init_self ramp_noise) capture_ok) = None /\
  Np.len (vertexes (test.mesh1 (test.self_after
            (test.update (test.init_self ramp_noise) capture_ok))))
  = 32 * 32.
Proof.
  pose proof (X18_good_capture_publishes_consistent_mesh
                (test.init_self ramp_noise) capture_ok silence
                (test_init_self_constructed ramp_noise) eq_refl eq_refl
                silence_length) as (Hraised & _ & Hlen & _).
  split; [exact Hraised | exact Hlen].
Defined.

(** X19. Ticks of the audio program keep no history: the outcome of a tick
    does not depend on the mesh published before, and a second tick with
    the same answers of the stream ends exactly as the first. *)
Theorem X19_audio_ticks_are_memoryless :
  forall (self : test.Terrain) (stream : test.Stream),
    (forall d : MeshData,
        test.mesh1 (test.self_after (test.update (test.set_mesh1 self d) stream))
        = test.mesh1 (test.self_after (test.update self stream)) \/
        (test.self_after (test.update self stream) = self /\
         test.self_after (test.update (test.set_mesh1 self d) stream)
         = test.set_mesh1 self d)) /\
    test.update (test.self_after (test.update self stream)) stream
    = test.update self stream.
Proof.
  intros self stream. split.
  - intros d. unfold test.update, test.update_try.
    change (test.CHUNK (test.set_mesh1 self d)) with (test.CHUNK self).
    change (test.offset (test.set_mesh1 self d)) with (test.offset self).
    change (test.mesh (test.set_mesh1 self d) (test.offset self) 3.5)
      with (test.mesh self (test.offset self) 3.5).
    destruct (test.is_active stream) as [[|]|[| |msg]];
      try (right; split; reflexivity).
    destruct (test.read stream (test.CHUNK self)) as [wf|[| |msg]];
      try (right; split; reflexivity).
    destruct (test.mesh self (test.offset self) 3.5 (Some wf)) as [vfc|[| |msg]];
      try (right; split; reflexivity).
    left. reflexivity.
  - unfold test.update at 2 3. unfold test.update_try.
    destruct (test.is_active stream) as [[|]|[| |msg]] eqn:Hactive;
      try (cbn; unfold test.update, test.update_try; now rewrite Hactive).
    destruct (test.read stream (test.CHUNK self)) as [wf|[| |msg]] eqn:Hread;
      try (cbn; unfold test.update, test.update_try;
           now rewrite Hactive, Hread).
    destruct (test.mesh self (test.offset self) 3.5 (Some wf))
      as [vfc|[| |msg]] eqn:Hmesh;
      try (cbn; unfold test.update, test.update_try;
           now rewrite Hactive, Hread, Hmesh).
    cbn [test.self_after]. unfold test.update, test.update_try.
    change (test.CHUNK (test.set_mesh1 self _)) with (test.CHUNK self).
    change (test.offset (test.set_mesh1 self _)) with (test.offset self).
    rewrite Hactive, Hread.
    change (test.mesh (test.set_mesh1 self _) (test.offset self) 3.5 (Some wf))
      with (test.mesh self (test.offset self) 3.5 (Some wf)).
    now rewrite Hmesh.
Qed.

(** ** Heights *)

Lemma ramp_noise_bounded (x y : R) : (-1 <= ramp_noise x y <= 1)%R.
Proof.
  unfold ramp_noise, Rdiv.
  assert (Hpos : (0 < 1 + x * x)%R) by nra.
  pose proof (Rinv_0_lt_compat _ Hpos) as Hi.
  assert (Hr : ((1 + x * x) * / (1 + x * x) = 1)%R) by (apply Rinv_r; lra).
  assert (Hup : (0 <= (1 + x * x - x) * / (1 + x * x))%R)
    by (apply Rmult_le_pos; nra).
  assert (Hlo : (0 <= (1 + x * x + x) * / (1 + x * x))%R)
    by (apply Rmult_le_pos; nra).
  split; nra.
Qed.

(** X20. With a noise function whose values lie in [[-1, 1]], the heights
    sampled by a tick of the plain program lie in [[-2.5, 2.5]], and the
    heights sampled by [mesh] from a capture lie in [[-5.12, 5.12]]. *)
Theorem X20_sampled_heights_are_bounded :
  (forall (self : perline_noise.Terrain) (n m : nat) (x y : Z),
      (forall a b : R, (-1 <= perline_noise.tmp self a b <= 1)%R) ->
      nth_error (perline_noise.xpoints self) n = Some x ->
      nth_error (perline_noise.ypoints self) m = Some y ->
      exists z : R,
        nth_error (perline_noise.update_verts self)
                  (Spec.node_index (length (perline_noise.ypoints self)) n m)
        = Some [IZR x; IZR y; z] /\
        (-2.5 <= z <= 2.5)%R) /\
  (forall (self : test.Terrain) (off : R) (wf_data : list byte)
          (amp : Np.matrix) (n m : nat) (x y : R),
      (forall a b : R, (-1 <= test.noise self a b <= 1)%R) ->
      test.amplitudes self (Some wf_data) = Ok amp ->
      nth_error (test.xpoints self) n = Some x ->
      nth_error (test.ypoints self) m = Some y ->
      exists z : R,
        nth_error (test.mesh_verts self off amp)
                  (Spec.node_index (length (test.ypoints self)) n m)
        = Some [x; y; z] /\
        (-5.12 <= z <= 5.12)%R).
Proof.
  split.
  - intros self n m x y Hnoise Hx Hy.
    rewrite (perline_update_verts_row self n m x y Hx Hy).
    eexists. split; [reflexivity|]. unfold Spec.plain_height.
    pose proof (Hnoise (INR n / 5 + perline_noise.offset self)%R
                       (INR m / 5 + perline_noise.offset self)%R).
    lra.
  - intros self off wf amp n m x y Hnoise Hamp Hx Hy.
    rewrite (test_mesh_verts_row self off amp n m x y Hx Hy).
    eexists. split; [reflexivity|]. unfold Spec.plain_height.
    destruct (amplitude_entry self wf amp n m Hamp) as (b & _ & ->).
    + apply nth_error_Some. congruence.
    + apply nth_error_Some. congruence.
    + pose proof (signed8_range b) as (Hlo & Hhi).
      apply IZR_le in Hlo, Hhi.
      pose proof (Hnoise (INR n / 5.5 + off)%R (INR m / 5.2 + off)%R).
      nra.
Qed.

Lemma X20_witness :
  exists z : R,
    nth_error (perline_noise.update_verts (perline_noise.init ramp_noise))
              (Spec.node_index 42 1 0)
    = Some [IZR (-19); IZR (-20); z] /\
    (-2.5 <= z <= 2.5)%R.
Proof.
  exact (proj1 X20_sampled_heights_are_bounded (perline_noise.init ramp_noise)
           1%nat 0%nat (-19) (-20) ramp_noise_bounded eq_refl eq_refl).
Defined.
